(** * tools/provision.py: the development-environment provisioning script

    A shallow embedding of [tools/provision.py] and the properties its
    specification states about it.

    The script is a straight-line sequence of effects: it queries the host,
    spawns external commands, prints, and writes one file.  Each of these is a
    primitive of a small state-and-exception monad over an abstract host
    [System]; every primitive that is run is recorded, with its outcome, in a
    trace.  Python exceptions are values of [Exn]; [sys.exit] raises
    [SystemExit], as in Python. *)

From stdpp Require Import base strings list gmap.
From Stdlib Require Import ZArith Ascii.

Local Open Scope string_scope.
Local Open Scope list_scope.
Local Open Scope Z_scope.

(** ** Python values used by the script *)

Module Py.

(** [s.startswith('/')] *)
Definition startswith_sep (s : string) : bool :=
  match s with
  | String "/"%char _ => true
  | _ => false
  end.

(** [s.endswith('/')] *)
Fixpoint endswith_sep (s : string) : bool :=
  match s with
  | EmptyString => false
  | String c EmptyString => Ascii.eqb c "/"%char
  | String _ rest => endswith_sep rest
  end.

(** One round of the loop of [posixpath.join]. *)
Definition join_step (path b : string) : string :=
  if startswith_sep b then b
  else if String.eqb path "" || endswith_sep path then path +:+ b
  else path +:+ "/" +:+ b.

(** [os.path.join(a, *p)] *)
Definition os_path_join (a : string) (p : list string) : string :=
  fold_left join_step p a.

(** The newline character, ["\n"] in Python. *)
Definition LF : string := String "010"%char EmptyString.

(** [x in l] for a list of strings. *)
Definition contains (x : string) (l : list string) : bool :=
  bool_decide (x ∈ l).

End Py.

(** ** Exceptions, results and the trace *)

Inductive Exn : Type :=
| CalledProcessError (returncode : Z) (cmd : list string)
| SystemExit (code : Z)
| KeyError (key : string)
| OtherError (description : string).

Inductive Result (A : Type) : Type :=
| Ok (a : A)
| Raise (e : Exn).
Arguments Ok {A} a.
Arguments Raise {A} e.

(** What the script does to the outside, in the order it does it.  A call of
    something that lives outside this file carries the result the call had. *)
Inductive Event : Type :=
| EvPrint (line : string)
| EvLogCritical (message : string)
| EvArchitecture (bits : string)
| EvChdir (path : string) (r : Result unit)
| EvCheckCall (argv : list string) (r : Result unit)
| EvTextOutput (argv : list string) (r : Result string)
| EvRun (argv : list string) (r : Result unit)
| EvSetupVirtualenv (venv_path requirements : string)
    (patch_activate_script : bool) (virtualenv_args : list string)
    (r : Result unit)
| EvSetupVenvs (r : Result unit)
| EvSetupNodeModules (r : Result unit)
| EvWriteLines (path mode : string) (lines : list string) (r : Result unit).

(** ** The host *)

(** Everything the script reaches outside itself: the Python standard library
    ([os], [platform], [subprocess], [open]) and the helpers it imports from
    [scripts/lib] and [tools/setup], whose code is not part of this file.  A
    call takes the world it runs in and returns its result with the world it
    leaves. *)
Class System (W : Type) : Type := {
  os_path_exists : string → W → bool;
  os_path_islink : string → W → bool;
  platform_architecture : W → string;
  os_chdir : string → W → Result unit * W;
  subprocess_check_call : list string → W → Result unit * W;
  subprocess_text_output : list string → W → Result string * W;
  zulip_tools_run : list string → W → Result unit * W;
  setup_virtualenv :
    string → string → bool → list string → W → Result unit * W;
  setup_venvs_main : W → Result unit * W;
  setup_node_modules : W → Result unit * W;
  (** [with open(path, mode) as f: f.writelines(lines)] *)
  open_writelines : string → string → list string → W → Result unit * W;
}.

(** Constants the script imports from [scripts/lib]. *)
Class ScriptsLib : Type := {
  VENV_DEPENDENCIES : list string;
  OKBLUE : string;
  ENDC : string;
  WARNING : string;
}.

(** What the interpreter gives the script when it starts. *)
Class Invocation : Type := {
  (** [sys.version_info[0] == 2] *)
  PY2 : bool;
  sys_argv : list string;
  (** [os.path.dirname(os.path.dirname(os.path.abspath(__file__)))] *)
  ZULIP_PATH : string;
  (** the home directory [os.path.expanduser] puts in place of [~] *)
  USER_HOME : string;
}.

(** ** The monad *)

Record State (W : Type) : Type := MkState {
  world : W;
  trace : list Event;
}.
Arguments MkState {W} world trace.
Arguments world {W} s.
Arguments trace {W} s.

Definition M (W A : Type) : Type := State W → Result A * State W.

Definition ret {W A} (a : A) : M W A := λ st, (Ok a, st).

Definition bind {W A B} (m : M W A) (k : A → M W B) : M W B :=
  λ st,
    match m st with
    | (Ok a, st') => k a st'
    | (Raise e, st') => (Raise e, st')
    end.

Definition raise {W A} (e : Exn) : M W A := λ st, (Raise e, st).

(** [try: body  except subprocess.CalledProcessError: handler] *)
Definition try_except_CalledProcessError {W A}
    (body handler : M W A) : M W A :=
  λ st,
    match body st with
    | (Raise (CalledProcessError _ _), st') => handler st'
    | other => other
    end.

Declare Scope prov_scope.
Delimit Scope prov_scope with prov.
Notation "x <- m ;; k" := (bind m (λ x, k))
  (at level 100, m at next level, k at level 200, right associativity)
  : prov_scope.
Notation "m ;; k" := (bind m (λ _, k))
  (at level 100, k at level 200, right associativity) : prov_scope.

(** The state after an event. *)
Definition record {W} (st : State W) (ev : Event) (w : W) : State W :=
  MkState w (trace st ++ [ev]).

(** A call of the host that changes the world: run it, record it, and raise
    what it raised. *)
Definition call {W A} (f : W → Result A * W) (ev : Result A → Event)
    : M W A :=
  λ st, let '(r, w) := f (world st) in (r, record st (ev r) w).

(** Something the script does itself that cannot fail. *)
Definition emit {W} (ev : Event) : M W unit :=
  λ st, (Ok tt, record st ev (world st)).

(** A query of the host. *)
Definition ask {W A} (f : W → A) : M W A := λ st, (Ok (f (world st)), st).

(** [d[key]] *)
Definition dict_get {W A} (d : gmap string A) (key : string) : M W A :=
  match d !! key with
  | Some v => ret v
  | None => raise (KeyError key)
  end.

(** ** The script *)

Section Script.
Context {W : Type} {sys : System W} {lib : ScriptsLib} {inv : Invocation}.

Local Open Scope prov_scope.

(** *** Primitives, one per kind of call the script makes *)

Definition print (line : string) : M W unit := emit (EvPrint line).

Definition logging_critical (message : string) : M W unit :=
  emit (EvLogCritical message).

Definition sys_exit {A} (code : Z) : M W A := raise (SystemExit code).

Definition architecture : M W string :=
  bits <- ask platform_architecture ;;
  emit (EvArchitecture bits) ;;
  ret bits.

Definition chdir (path : string) : M W unit :=
  call (os_chdir path) (EvChdir path).

Definition check_call (argv : list string) : M W unit :=
  call (subprocess_check_call argv) (EvCheckCall argv).

Definition text_output (argv : list string) : M W string :=
  call (subprocess_text_output argv) (EvTextOutput argv).

Definition run (argv : list string) : M W unit :=
  call (zulip_tools_run argv) (EvRun argv).

Definition virtualenv (venv_path requirements : string)
    (patch_activate_script : bool) (virtualenv_args : list string)
    : M W unit :=
  call (setup_virtualenv venv_path requirements patch_activate_script
          virtualenv_args)
       (EvSetupVirtualenv venv_path requirements patch_activate_script
          virtualenv_args).

Definition venvs_main : M W unit := call setup_venvs_main EvSetupVenvs.

Definition node_modules : M W unit :=
  call setup_node_modules EvSetupNodeModules.

Definition writelines (path mode : string) (lines : list string)
    : M W unit :=
  call (open_writelines path mode lines) (EvWriteLines path mode lines).

(** [os.path.expanduser("~" + rest)] *)
Definition expanduser_home (rest : string) : string := USER_HOME +:+ rest.

(** *** Module-level constants (lines 21-44) *)

Definition SUPPORTED_PLATFORMS : gmap string (list string) :=
  {[ "Ubuntu" := ["trusty"; "xenial"] ]}.

Definition PY2_VENV_PATH : string := "/srv/zulip-venv".
Definition PY3_VENV_PATH : string := "/srv/zulip-py3-venv".
Definition VAR_DIR_PATH : string := Py.os_path_join ZULIP_PATH ["var"].
Definition LOG_DIR_PATH : string := Py.os_path_join VAR_DIR_PATH ["log"].
Definition UPLOAD_DIR_PATH : string :=
  Py.os_path_join VAR_DIR_PATH ["uploads"].
Definition TEST_UPLOAD_DIR_PATH : string :=
  Py.os_path_join VAR_DIR_PATH ["test_uploads"].
Definition COVERAGE_DIR_PATH : string :=
  Py.os_path_join VAR_DIR_PATH ["coverage"].
Definition LINECOVERAGE_DIR_PATH : string :=
  Py.os_path_join VAR_DIR_PATH ["linecoverage-report"].
Definition NODE_TEST_COVERAGE_DIR_PATH : string :=
  Py.os_path_join VAR_DIR_PATH ["node-coverage"].

Definition VENV_PATH : string :=
  if PY2 then PY2_VENV_PATH else PY3_VENV_PATH.

Definition TRAVIS : bool := Py.contains "--travis" sys_argv.
Definition PRODUCTION_TRAVIS : bool :=
  Py.contains "--production-travis" sys_argv.

(** *** Module-level constants (lines 70-115) *)

Definition POSTGRES_VERSION_MAP : gmap string string :=
  {[ "trusty" := "9.3"; "xenial" := "9.5" ]}.

Definition UBUNTU_COMMON_APT_DEPENDENCIES : list string :=
  [ "closure-compiler";
    "memcached";
    "rabbitmq-server";
    "redis-server";
    "hunspell-en-us";
    "supervisor";
    "git";
    "libssl-dev";
    "yui-compressor";
    "wget";
    "ca-certificates";
    "puppet";
    "gettext";
    "curl";
    "netcat" ] ++ VENV_DEPENDENCIES.

Definition APT_DEPENDENCIES : gmap string (list string) :=
  {[ "trusty" := UBUNTU_COMMON_APT_DEPENDENCIES ++
       [ "postgresql-9.3";
         "postgresql-9.3-tsearch-extras";
         "postgresql-9.3-pgroonga" ];
     "xenial" := UBUNTU_COMMON_APT_DEPENDENCIES ++
       [ "postgresql-9.5";
         "postgresql-9.5-tsearch-extras";
         "postgresql-9.5-pgroonga" ] ]}.

Definition REPO_STOPWORDS_PATH : string :=
  Py.os_path_join ZULIP_PATH
    ["puppet"; "zulip"; "files"; "postgresql"; "zulip_english.stop"].

(** What the module-level code leaves for [main]: the names bound from the
    host rather than from constants. *)
Record Globals : Type := MkGlobals {
  arch : string;
  vendor : string;
  codename : string;
  POSTGRES_VERSION : string;
}.

Definition TSEARCH_STOPWORDS_PATH (g : Globals) : string :=
  "/usr/share/postgresql/" +:+ POSTGRES_VERSION g +:+ "/tsearch_data/".

(** [vendor in SUPPORTED_PLATFORMS and
     codename in SUPPORTED_PLATFORMS[vendor]] *)
Definition platform_supported (vendor codename : string) : bool :=
  match SUPPORTED_PLATFORMS !! vendor with
  | Some codenames => Py.contains codename codenames
  | None => false
  end.

(** *** Module-level code (lines 46-74) *)

Definition module_level : M W Globals :=
  git <- ask (os_path_exists (Py.os_path_join ZULIP_PATH [".git"])) ;;
  (if negb git then
     print "Error: No Zulip git repository present!" ;;
     print "To setup the Zulip development environment, you should clone the code" ;;
     print "from GitHub, rather than using a Zulip production release tarball." ;;
     sys_exit 1
   else ret tt) ;;
  bits <- architecture ;;
  arch <- (if String.eqb bits "64bit" then ret "amd64"
           else if String.eqb bits "32bit" then ret "i386"
           else
             logging_critical "Only x86 is supported; ping zulip-devel@googlegroups.com if you want another architecture." ;;
             sys_exit 1) ;;
  check_call ["sudo"; "apt-get"; "update"] ;;
  check_call ["sudo"; "apt-get"; "install"; "-y"; "lsb-release";
              "software-properties-common"] ;;
  vendor <- text_output ["lsb_release"; "-is"] ;;
  codename <- text_output ["lsb_release"; "-cs"] ;;
  (if negb (platform_supported vendor codename) then
     logging_critical
       ("Unsupported platform: " +:+ vendor +:+ " " +:+ codename) ;;
     sys_exit 1
   else ret tt) ;;
  postgres_version <- dict_get POSTGRES_VERSION_MAP codename ;;
  ret (MkGlobals arch vendor codename postgres_version).

(** *** [main] (lines 120-217) *)

Definition GROONGA_PPA : list string :=
  ["sudo"; "add-apt-repository"; "-y"; "ppa:groonga/ppa"].

(** lines 129-134 *)
Definition add_groonga_repository : M W unit :=
  try_except_CalledProcessError
    (run GROONGA_PPA)
    (print (WARNING +:+ "`Could not add groonga; retrying..." +:+ ENDC) ;;
     run GROONGA_PPA).

(** lines 203-213 *)
Definition npm_install : M W unit :=
  try_except_CalledProcessError
    (link <- ask (os_path_islink "node_modules") ;;
     (if link then run ["sudo"; "rm"; "-f"; "node_modules"] else ret tt) ;;
     node_modules)
    (print (WARNING +:+ "`npm install` failed; retrying..." +:+ ENDC) ;;
     node_modules).

Definition APT_INSTALL : list string :=
  ["sudo"; "apt-get"; "-y"; "install"; "--no-install-recommends"].

Definition main (g : Globals) : M W Z :=
  chdir ZULIP_PATH ;;
  run ["sudo"; "./scripts/lib/setup-apt-repo"] ;;
  add_groonga_repository ;;
  run ["sudo"; "apt-get"; "update"] ;;
  packages <- dict_get APT_DEPENDENCIES (codename g) ;;
  run (APT_INSTALL ++ packages) ;;
  (if TRAVIS then
     if PY2 then
       virtualenv PY3_VENV_PATH
         (Py.os_path_join ZULIP_PATH ["requirements"; "mypy.txt"])
         true ["-p"; "python3"] ;;
       virtualenv PY2_VENV_PATH
         (Py.os_path_join ZULIP_PATH ["requirements"; "py2_dev.txt"])
         true []
     else
       virtualenv VENV_PATH
         (Py.os_path_join ZULIP_PATH ["requirements"; "py3_dev.txt"])
         true ["-p"; "python3"]
   else venvs_main) ;;
  writelines (expanduser_home "/.bash_profile") "w+"
    [ "source .bashrc" +:+ Py.LF;
      "source " +:+ Py.os_path_join VENV_PATH ["bin"; "activate"]
        +:+ Py.LF ] ;;
  run ["sudo"; "cp"; REPO_STOPWORDS_PATH; TSEARCH_STOPWORDS_PATH g] ;;
  run ["mkdir"; "-p"; LOG_DIR_PATH] ;;
  run ["mkdir"; "-p"; UPLOAD_DIR_PATH] ;;
  run ["mkdir"; "-p"; TEST_UPLOAD_DIR_PATH] ;;
  run ["mkdir"; "-p"; COVERAGE_DIR_PATH] ;;
  run ["mkdir"; "-p"; LINECOVERAGE_DIR_PATH] ;;
  run ["mkdir"; "-p"; NODE_TEST_COVERAGE_DIR_PATH] ;;
  run ["tools/setup/download-zxcvbn"] ;;
  run ["tools/setup/emoji_dump/build_emoji"] ;;
  run ["scripts/setup/generate_secrets.py"; "--development"] ;;
  (if TRAVIS && negb PRODUCTION_TRAVIS then
     run ["sudo"; "service"; "rabbitmq-server"; "restart"] ;;
     run ["sudo"; "service"; "redis-server"; "restart"] ;;
     run ["sudo"; "service"; "memcached"; "restart"]
   else if Py.contains "--docker" sys_argv then
     run ["sudo"; "service"; "rabbitmq-server"; "restart"] ;;
     run ["sudo"; "pg_dropcluster"; "--stop"; POSTGRES_VERSION g; "main"] ;;
     run ["sudo"; "pg_createcluster"; "-e"; "utf8"; "--start";
          POSTGRES_VERSION g; "main"] ;;
     run ["sudo"; "service"; "redis-server"; "restart"] ;;
     run ["sudo"; "service"; "memcached"; "restart"]
   else ret tt) ;;
  (if negb PRODUCTION_TRAVIS then
     run ["scripts/setup/configure-rabbitmq"] ;;
     run ["tools/setup/postgres-init-dev-db"] ;;
     run ["tools/do-destroy-rebuild-database"] ;;
     run ["tools/setup/postgres-init-test-db"] ;;
     run ["tools/do-destroy-rebuild-test-database"] ;;
     run ["python"; "./manage.py"; "compilemessages"]
   else ret tt) ;;
  run ["sudo"; "tools/setup/install-node"] ;;
  npm_install ;;
  print "" ;;
  print (OKBLUE +:+ "Zulip development environment setup succeeded!"
           +:+ ENDC) ;;
  ret 0.

(** The whole file, run as a script: the module-level code, then
    [sys.exit(main())].  The result is the status [main] returned, which
    [sys.exit] hands to the interpreter, or the exception that ended the
    run. *)
Definition script : M W Z :=
  g <- module_level ;;
  main g.

(** One run of the script in a world: how it ended, the world it left, and
    what it did. *)
Definition provision (w : W) : Result Z * W * list Event :=
  let '(r, st) := script (MkState w []) in (r, world st, trace st).

End Script.

(** The status the interpreter exits with: the argument of [sys.exit], or 1
    after an uncaught exception. *)
Definition exit_status (r : Result Z) : Z :=
  match r with
  | Ok status => status
  | Raise (SystemExit code) => code
  | Raise _ => 1
  end.

(** ** A model host

    A machine to run the script on: a directory tree, a set of installed
    packages and the answers of the platform queries.  Commands the model
    does not know succeed and change nothing; the tree has no symbolic
    links. *)

Module Host.

Inductive Node : Type :=
| Dir
| File (content : string).

Record t : Type := Mk {
  bits : string;
  lsb_vendor : string;
  lsb_codename : string;
  cwd : list string;
  fs : gmap (list string) Node;
  packages : gset string;
}.

Definition with_cwd (h : t) (d : list string) : t :=
  Mk (bits h) (lsb_vendor h) (lsb_codename h) d (fs h) (packages h).
Definition with_fs (h : t) (f : gmap (list string) Node) : t :=
  Mk (bits h) (lsb_vendor h) (lsb_codename h) (cwd h) f (packages h).
Definition with_packages (h : t) (p : gset string) : t :=
  Mk (bits h) (lsb_vendor h) (lsb_codename h) (cwd h) (fs h) p.

(** The pieces of a path between its separators, empty ones included. *)
Fixpoint split_sep (s : string) : list string :=
  match s with
  | EmptyString => [""]
  | String c rest =>
      match split_sep rest with
      | [] => []
      | piece :: pieces =>
          if Ascii.eqb c "/"%char then "" :: piece :: pieces
          else String c piece :: pieces
      end
  end.

Definition segments (s : string) : list string :=
  filter (λ piece, piece ≠ "") (split_sep s).

(** A path as seen from the directory [dir]. *)
Definition resolve_from (dir : list string) (path : string) : list string :=
  if Py.startswith_sep path then segments path
  else dir ++ segments path.

(** A path as the host sees it from its working directory. *)
Definition resolve (h : t) (path : string) : list string :=
  resolve_from (cwd h) path.

Definition is_dir (f : gmap (list string) Node) (p : list string) : bool :=
  match p with
  | [] => true
  | _ => match f !! p with Some Dir => true | _ => false end
  end.

Definition parent (p : list string) : list string :=
  take (length p - 1)%nat p.

(** Modelled from the spec: the effect of the external [mkdir -p], which
    the script spawns and whose code is not in the repository.  Section 4.5
    ([ensure_directory]): it "creates the full path including intermediate
    segments" and "succeeds unconditionally if the path already exists as a
    directory"; its result type allows an [IoError], here a segment that is
    a file. *)
Fixpoint mkdir_p_from (base segs : list string)
    (f : gmap (list string) Node) : option (gmap (list string) Node) :=
  match segs with
  | [] => Some f
  | seg :: rest =>
      let p := base ++ [seg] in
      match f !! p with
      | None => mkdir_p_from p rest (<[p := Dir]> f)
      | Some Dir => mkdir_p_from p rest f
      | Some (File _) => None
      end
  end.

Definition mkdir_p (p : list string) (f : gmap (list string) Node)
    : option (gmap (list string) Node) :=
  mkdir_p_from [] p f.

(** A directory tree: whatever exists below the root sits in a
    directory. *)
Definition wf (f : gmap (list string) Node) : Prop :=
  map_Forall (λ q _, parent q = [] ∨ f !! parent q = Some Dir) f.

(** No segment of the path is a file. *)
Definition unobstructed (f : gmap (list string) Node) (p : list string)
    : Prop :=
  ∀ k content, f !! take k p ≠ Some (File content).

(** Every segment of [segs] below [base] is a directory. *)
Definition all_dirs (f : gmap (list string) Node)
    (base segs : list string) : Prop :=
  ∀ k, (0 < k ≤ length segs)%nat → f !! (base ++ take k segs) = Some Dir.

(** Plain [mkdir], without [-p]: the parent must exist and the path must
    not. *)
Definition mkdir (p : list string) (f : gmap (list string) Node)
    : option (gmap (list string) Node) :=
  match p, f !! p with
  | _ :: _, None => if is_dir f (parent p) then Some (<[p := Dir]> f) else None
  | _, _ => None
  end.

(** Modelled from the spec: the effect of the external [cp], which the
    script spawns and whose code is not in the repository.  Section 4.5
    ([ensure_file_copied]): it copies the source file to the destination and
    "always overwrites".  A destination that is a directory receives the
    file under the source's name. *)
Definition cp (src dst : list string) (dst_names_dir : bool)
    (f : gmap (list string) Node) : option (gmap (list string) Node) :=
  match f !! src, last src with
  | Some (File content), Some name =>
      if is_dir f dst then
        match f !! (dst ++ [name]) with
        | Some Dir => None
        | _ => Some (<[dst ++ [name] := File content]> f)
        end
      else if dst_names_dir then None
      else
        match f !! dst with
        | Some Dir => None
        | _ => if is_dir f (parent dst)
               then Some (<[dst := File content]> f) else None
        end
  | _, _ => None
  end.

(** The package names on an [apt-get] command line: what is neither an
    option nor the sub-command. *)
Definition package_args (args : list string) : list string :=
  filter (λ a, String.prefix "-" a = false ∧ a ≠ "install") args.

Definition strip_sudo (argv : list string) : list string :=
  match argv with
  | prog :: rest => if String.eqb prog "sudo" then rest else argv
  | [] => []
  end.

Definition failed (argv : list string) (h : t) : Result unit * t :=
  (Raise (CalledProcessError 1 argv), h).

(** The commands that mean nothing to the model: neither [mkdir], nor [cp],
    nor an [apt-get install]. *)
Definition inert (argv : list string) : bool :=
  match strip_sudo argv with
  | prog :: args =>
      negb (String.eqb prog "mkdir") && negb (String.eqb prog "cp")
      && (negb (String.eqb prog "apt-get")
          || negb (Py.contains "install" args))
  | [] => false
  end.

(** Modelled from the spec: what a spawned command does to the host.  The
    package manager installs the packages it is given (section 4.6 counts
    "package installation" among the idempotent actions); [mkdir] and [cp]
    are as above. *)
Definition exec (argv : list string) (h : t) : Result unit * t :=
  match strip_sudo argv with
  | prog :: args =>
      if String.eqb prog "mkdir" then
        match args with
        | [flag; path] =>
            if String.eqb flag "-p" then
              match mkdir_p (resolve h path) (fs h) with
              | Some f => (Ok tt, with_fs h f)
              | None => failed argv h
              end
            else failed argv h
        | [path] =>
            match mkdir (resolve h path) (fs h) with
            | Some f => (Ok tt, with_fs h f)
            | None => failed argv h
            end
        | _ => failed argv h
        end
      else if String.eqb prog "cp" then
        match args with
        | [src; dst] =>
            match cp (resolve h src) (resolve h dst)
                    (Py.endswith_sep dst) (fs h) with
            | Some f => (Ok tt, with_fs h f)
            | None => failed argv h
            end
        | _ => failed argv h
        end
      else if String.eqb prog "apt-get" then
        if Py.contains "install" args then
          (Ok tt,
           with_packages h (packages h ∪ list_to_set (package_args args)))
        else (Ok tt, h)
      else (Ok tt, h)
  | [] => (Raise (OtherError "IndexError"), h)
  end.

Definition text_output (argv : list string) (h : t) : Result string * t :=
  match argv with
  | [prog; flag] =>
      if String.eqb prog "lsb_release" then
        if String.eqb flag "-is" then (Ok (lsb_vendor h), h)
        else if String.eqb flag "-cs" then (Ok (lsb_codename h), h)
        else (Ok "", h)
      else (Ok "", h)
  | _ => (Ok "", h)
  end.

Definition path_exists (path : string) (h : t) : bool :=
  let p := resolve h path in
  is_dir (fs h) p || bool_decide (is_Some (fs h !! p)).

Definition chdir (path : string) (h : t) : Result unit * t :=
  if is_dir (fs h) (resolve h path)
  then (Ok tt, with_cwd h (resolve h path))
  else (Raise (OtherError "OSError"), h).

(** [open(path, mode)] followed by [writelines(lines)], by the mode as
    Python documents it: ["w"] and ["w+"] truncate the file first, ["a"] and
    ["a+"] write at its end. *)
Definition writelines (path mode : string) (lines : list string) (h : t)
    : Result unit * t :=
  let p := resolve h path in
  let new := fold_right String.append "" lines in
  if is_dir (fs h) p then (Raise (OtherError "IsADirectoryError"), h)
  else if negb (is_dir (fs h) (parent p))
  then (Raise (OtherError "FileNotFoundError"), h)
  else if String.eqb mode "w" || String.eqb mode "w+" then
    (Ok tt, with_fs h (<[p := File new]> (fs h)))
  else if String.eqb mode "a" || String.eqb mode "a+" then
    match fs h !! p with
    | Some (File old) => (Ok tt, with_fs h (<[p := File (old +:+ new)]> (fs h)))
    | _ => (Ok tt, with_fs h (<[p := File new]> (fs h)))
    end
  else (Raise (OtherError "ValueError"), h).

End Host.

#[export] Instance host_system : System Host.t := {
  os_path_exists := Host.path_exists;
  os_path_islink := λ _ _, false;
  platform_architecture := Host.bits;
  os_chdir := Host.chdir;
  subprocess_check_call := Host.exec;
  subprocess_text_output := Host.text_output;
  zulip_tools_run := Host.exec;
  setup_virtualenv := λ _ _ _ _ h, (Ok tt, h);
  setup_venvs_main := λ h, (Ok tt, h);
  setup_node_modules := λ h, (Ok tt, h);
  open_writelines := Host.writelines;
}.

(** ** A scripted host

    A test double: the world holds the answers to the queries and the list of
    results the next calls will have; a call takes the first of them, and
    succeeds once the list is used up. *)

Module Scripted.

Record t : Type := Mk {
  git : bool;
  bits : string;
  vendor : string;
  codename : string;
  link : bool;
  results : list (Result unit);
}.

Definition rest (w : t) (l : list (Result unit)) : t :=
  Mk (git w) (bits w) (vendor w) (codename w) (link w) l.

Definition next {A} (answer : A) (w : t) : Result A * t :=
  match results w with
  | [] => (Ok answer, w)
  | Ok _ :: l => (Ok answer, rest w l)
  | Raise e :: l => (Raise e, rest w l)
  end.

Definition text_output (argv : list string) (w : t) : Result string * t :=
  next (if bool_decide (argv = ["lsb_release"; "-is"]) then vendor w
        else codename w) w.

End Scripted.

#[export] Instance scripted_system : System Scripted.t := {
  os_path_exists := λ _, Scripted.git;
  os_path_islink := λ _, Scripted.link;
  platform_architecture := Scripted.bits;
  os_chdir := λ _, Scripted.next tt;
  subprocess_check_call := λ _, Scripted.next tt;
  subprocess_text_output := Scripted.text_output;
  zulip_tools_run := λ _, Scripted.next tt;
  setup_virtualenv := λ _ _ _ _, Scripted.next tt;
  setup_venvs_main := Scripted.next tt;
  setup_node_modules := Scripted.next tt;
  open_writelines := λ _ _ _, Scripted.next tt;
}.

(** Values for the constants of [scripts/lib], to run the script on the model
    hosts: a dependency list and the terminal colour codes. *)
#[export] Instance zulip_scripts_lib : ScriptsLib := {
  VENV_DEPENDENCIES :=
    [ "build-essential"; "libffi-dev"; "libfreetype6-dev"; "libldap2-dev";
      "libmemcached-dev"; "python3-dev"; "python-dev"; "python-pip";
      "python-virtualenv"; "postgresql-server-dev-all"; "libxml2-dev";
      "libxslt1-dev" ];
  OKBLUE := String "027"%char "[94m";
  ENDC := String "027"%char "[0m";
  WARNING := String "027"%char "[93m";
}.

(** ** Reading a trace *)

(** The exception a recorded call raised, if it raised one. *)
Definition failure (ev : Event) : option Exn :=
  match ev with
  | EvChdir _ (Raise e) => Some e
  | EvCheckCall _ (Raise e) => Some e
  | EvTextOutput _ (Raise e) => Some e
  | EvRun _ (Raise e) => Some e
  | EvSetupVirtualenv _ _ _ _ (Raise e) => Some e
  | EvSetupVenvs (Raise e) => Some e
  | EvSetupNodeModules (Raise e) => Some e
  | EvWriteLines _ _ _ (Raise e) => Some e
  | _ => None
  end.

(** The command lines given to [run], in order. *)
Definition run_argvs (t : list Event) : list (list string) :=
  omap (λ ev, match ev with EvRun argv _ => Some argv | _ => None end) t.

(** The command lines spawned in any way ([check_call],
    [subprocess_text_output], [run]), in order. *)
Definition spawned (t : list Event) : list (list string) :=
  omap (λ ev, match ev with
              | EvCheckCall argv _ | EvTextOutput argv _ | EvRun argv _ =>
                  Some argv
              | _ => None
              end) t.

(** The files opened for writing: path, mode and the lines written. *)
Definition writes (t : list Event) : list (string * string * list string) :=
  omap (λ ev, match ev with
              | EvWriteLines path mode lines _ => Some (path, mode, lines)
              | _ => None
              end) t.

(** The lines printed. *)
Definition printed (t : list Event) : list string :=
  omap (λ ev, match ev with EvPrint line => Some line | _ => None end) t.

(** The calls of [setup_node_modules], by result. *)
Definition node_modules_calls (t : list Event) : list (Result unit) :=
  omap (λ ev, match ev with EvSetupNodeModules r => Some r | _ => None end) t.

(** [has_prefix p l]: the list [l] starts with [p]. *)
Definition has_prefix (p l : list string) : bool :=
  bool_decide (take (length p) l = p).

(** The batches of packages handed to the package-installation command of
    [main]. *)
Definition install_batches (t : list Event) : list (list string) :=
  omap (λ argv, if has_prefix APT_INSTALL argv
                then Some (drop (length APT_INSTALL) argv) else None)
       (run_argvs t).

(** The commands that drop or create a database cluster. *)
Definition cluster_commands (t : list Event) : list (list string) :=
  filter (λ argv, argv !! 1%nat = Some "pg_dropcluster"
                  ∨ argv !! 1%nat = Some "pg_createcluster")
         (run_argvs t).

(** The services restarted, in order. *)
Definition restarted (t : list Event) : list string :=
  omap (λ argv, match argv with
                | [_; prog; name; action] =>
                    if String.eqb prog "service" && String.eqb action "restart"
                    then Some name else None
                | _ => None
                end)
       (run_argvs t).

(** The codename the platform query answered. *)
Definition detected_codename (t : list Event) : option string :=
  head (omap (λ ev, match ev with
                    | EvTextOutput argv (Ok out) =>
                        if bool_decide (argv = ["lsb_release"; "-cs"])
                        then Some out else None
                    | _ => None
                    end) t).








(** ** How the module-level code ends *)

Section Outcome.
Context {W : Type} {sys : System W} {lib : ScriptsLib} {inv : Invocation}.

Definition GIT_PATH : string := Py.os_path_join ZULIP_PATH [".git"].
Definition APT_UPDATE : list string := ["sudo"; "apt-get"; "update"].
Definition APT_LSB_RELEASE : list string :=
  ["sudo"; "apt-get"; "install"; "-y"; "lsb-release";
   "software-properties-common"].
Definition ARCH_MESSAGE : string :=
  "Only x86 is supported; ping zulip-devel@googlegroups.com if you want another architecture.".

Definition GROONGA_WARNING : string :=
  WARNING +:+ "`Could not add groonga; retrying..." +:+ ENDC.
Definition NPM_WARNING : string :=
  WARNING +:+ "`npm install` failed; retrying..." +:+ ENDC.
Definition RM_NODE_MODULES : list string :=
  ["sudo"; "rm"; "-f"; "node_modules"].

Definition DROP_CLUSTER (version : string) : list string :=
  ["sudo"; "pg_dropcluster"; "--stop"; version; "main"].
Definition CREATE_CLUSTER (version : string) : list string :=
  ["sudo"; "pg_createcluster"; "-e"; "utf8"; "--start"; version; "main"].

(** The condition under which [main] reaches the branch of [--docker]:
    the flag is given and the branch before it is not taken. *)
Definition docker_branch : bool :=
  negb (TRAVIS && negb PRODUCTION_TRAVIS)
  && Py.contains "--docker" sys_argv.

(** The two lines written to the profile. *)
Definition PROFILE_LINES : list string :=
  [ "source .bashrc" +:+ Py.LF;
    "source " +:+ Py.os_path_join VENV_PATH ["bin"; "activate"]
      +:+ Py.LF ].

(** [arch_of bits]: the value the script binds [arch] to. *)
Definition arch_of (bits : string) : option string :=
  if String.eqb bits "64bit" then Some "amd64"
  else if String.eqb bits "32bit" then Some "i386"
  else None.

(** Every way the module-level code can end in the world [w], with the
    trace it leaves. *)
Inductive module_level_ends (w : W) : Result Globals → State W → Prop :=
| ends_no_git :
    os_path_exists GIT_PATH w = false →
    module_level_ends w (Raise (SystemExit 1))
      (MkState w
         [ EvPrint "Error: No Zulip git repository present!";
           EvPrint "To setup the Zulip development environment, you should clone the code";
           EvPrint "from GitHub, rather than using a Zulip production release tarball." ])
| ends_architecture :
    os_path_exists GIT_PATH w = true →
    arch_of (platform_architecture w) = None →
    module_level_ends w (Raise (SystemExit 1))
      (MkState w
         [ EvArchitecture (platform_architecture w);
           EvLogCritical ARCH_MESSAGE ])
| ends_update a e w1 :
    os_path_exists GIT_PATH w = true →
    arch_of (platform_architecture w) = Some a →
    subprocess_check_call APT_UPDATE w = (Raise e, w1) →
    module_level_ends w (Raise e)
      (MkState w1
         [ EvArchitecture (platform_architecture w);
           EvCheckCall APT_UPDATE (Raise e) ])
| ends_lsb_release a e w1 w2 :
    os_path_exists GIT_PATH w = true →
    arch_of (platform_architecture w) = Some a →
    subprocess_check_call APT_UPDATE w = (Ok tt, w1) →
    subprocess_check_call APT_LSB_RELEASE w1 = (Raise e, w2) →
    module_level_ends w (Raise e)
      (MkState w2
         [ EvArchitecture (platform_architecture w);
           EvCheckCall APT_UPDATE (Ok tt);
           EvCheckCall APT_LSB_RELEASE (Raise e) ])
| ends_vendor a e w1 w2 w3 :
    os_path_exists GIT_PATH w = true →
    arch_of (platform_architecture w) = Some a →
    subprocess_check_call APT_UPDATE w = (Ok tt, w1) →
    subprocess_check_call APT_LSB_RELEASE w1 = (Ok tt, w2) →
    subprocess_text_output ["lsb_release"; "-is"] w2 = (Raise e, w3) →
    module_level_ends w (Raise e)
      (MkState w3
         [ EvArchitecture (platform_architecture w);
           EvCheckCall APT_UPDATE (Ok tt);
           EvCheckCall APT_LSB_RELEASE (Ok tt);
           EvTextOutput ["lsb_release"; "-is"] (Raise e) ])
| ends_codename a v e w1 w2 w3 w4 :
    os_path_exists GIT_PATH w = true →
    arch_of (platform_architecture w) = Some a →
    subprocess_check_call APT_UPDATE w = (Ok tt, w1) →
    subprocess_check_call APT_LSB_RELEASE w1 = (Ok tt, w2) →
    subprocess_text_output ["lsb_release"; "-is"] w2 = (Ok v, w3) →
    subprocess_text_output ["lsb_release"; "-cs"] w3 = (Raise e, w4) →
    module_level_ends w (Raise e)
      (MkState w4
         [ EvArchitecture (platform_architecture w);
           EvCheckCall APT_UPDATE (Ok tt);
           EvCheckCall APT_LSB_RELEASE (Ok tt);
           EvTextOutput ["lsb_release"; "-is"] (Ok v);
           EvTextOutput ["lsb_release"; "-cs"] (Raise e) ])
| ends_unsupported a v c w1 w2 w3 w4 :
    os_path_exists GIT_PATH w = true →
    arch_of (platform_architecture w) = Some a →
    subprocess_check_call APT_UPDATE w = (Ok tt, w1) →
    subprocess_check_call APT_LSB_RELEASE w1 = (Ok tt, w2) →
    subprocess_text_output ["lsb_release"; "-is"] w2 = (Ok v, w3) →
    subprocess_text_output ["lsb_release"; "-cs"] w3 = (Ok c, w4) →
    platform_supported v c = false →
    module_level_ends w (Raise (SystemExit 1))
      (MkState w4
         [ EvArchitecture (platform_architecture w);
           EvCheckCall APT_UPDATE (Ok tt);
           EvCheckCall APT_LSB_RELEASE (Ok tt);
           EvTextOutput ["lsb_release"; "-is"] (Ok v);
           EvTextOutput ["lsb_release"; "-cs"] (Ok c);
           EvLogCritical
             ("Unsupported platform: " +:+ v +:+ " " +:+ c) ])
| ends_ready a v c pv w1 w2 w3 w4 :
    os_path_exists GIT_PATH w = true →
    arch_of (platform_architecture w) = Some a →
    subprocess_check_call APT_UPDATE w = (Ok tt, w1) →
    subprocess_check_call APT_LSB_RELEASE w1 = (Ok tt, w2) →
    subprocess_text_output ["lsb_release"; "-is"] w2 = (Ok v, w3) →
    subprocess_text_output ["lsb_release"; "-cs"] w3 = (Ok c, w4) →
    platform_supported v c = true →
    POSTGRES_VERSION_MAP !! c = Some pv →
    module_level_ends w (Ok (MkGlobals a v c pv))
      (MkState w4
         [ EvArchitecture (platform_architecture w);
           EvCheckCall APT_UPDATE (Ok tt);
           EvCheckCall APT_LSB_RELEASE (Ok tt);
           EvTextOutput ["lsb_release"; "-is"] (Ok v);
           EvTextOutput ["lsb_release"; "-cs"] (Ok c) ]).

End Outcome.

(** ** More readings of a trace *)

(** The exception the last thing in the trace raised, if it raised one. *)
Definition last_failure (t : list Event) : option Exn := last t ≫= failure.

(** Something the script reports itself: a printed line or a log record. *)
Definition is_report (ev : Event) : bool :=
  match ev with
  | EvPrint _ | EvLogCritical _ => true
  | _ => false
  end.

(** A package installation: an [apt-get] command line whose sub-command is
    [install]. *)
Definition is_install (ev : Event) : bool :=
  match ev with
  | EvCheckCall argv _ | EvRun argv _ =>
      has_prefix ["sudo"; "apt-get"] argv
      && (bool_decide (argv !! 2%nat = Some "install")
          || bool_decide (argv !! 3%nat = Some "install"))
  | _ => false
  end.

(** An [apt-get update] that succeeded. *)
Definition is_update (ev : Event) : bool :=
  match ev with
  | EvCheckCall argv (Ok _) | EvRun argv (Ok _) =>
      bool_decide (argv = ["sudo"; "apt-get"; "update"])
  | _ => false
  end.

(** [installs_follow_update prev t]: every package installation in [t] comes
    right after an [apt-get update] that succeeded; [prev] is what came
    before [t]. *)
Fixpoint installs_follow_update (prev : option Event) (t : list Event)
    : bool :=
  match t with
  | [] => true
  | ev :: rest =>
      (if is_install ev
       then match prev with Some p => is_update p | None => false end
       else true)
      && installs_follow_update (Some ev) rest
  end.

(** The commands of lines 193-198, which set up the message broker and the
    databases. *)
Definition DATABASE_SETUP : list (list string) :=
  [ ["scripts/setup/configure-rabbitmq"];
    ["tools/setup/postgres-init-dev-db"];
    ["tools/do-destroy-rebuild-database"];
    ["tools/setup/postgres-init-test-db"];
    ["tools/do-destroy-rebuild-test-database"];
    ["python"; "./manage.py"; "compilemessages"] ].

(** Those of them that were run, in order. *)
Definition database_setup (t : list Event) : list (list string) :=
  filter (λ argv, argv ∈ DATABASE_SETUP) (run_argvs t).

(** The calls of [setup_virtualenv]: the environment, its requirements
    file, [patch_activate_script] and [virtualenv_args]. *)
Definition virtualenvs (t : list Event)
    : list (string * string * bool * list string) :=
  omap (λ ev, match ev with
              | EvSetupVirtualenv venv_path requirements patch args _ =>
                  Some (venv_path, requirements, patch, args)
              | _ => None
              end) t.

(** The calls of [setup_venvs.main], by result. *)
Definition venvs_main_calls (t : list Event) : list (Result unit) :=
  omap (λ ev, match ev with EvSetupVenvs r => Some r | _ => None end) t.

(** The removals of the [node_modules] link. *)
Definition removals (t : list Event) : list (list string) :=
  filter (λ argv, argv = ["sudo"; "rm"; "-f"; "node_modules"]) (run_argvs t).

(** What [main] does after [os.chdir]: the commands it runs, the virtual
    environments and node modules it sets up, the file it writes. *)
Definition is_main_call (ev : Event) : bool :=
  match ev with
  | EvRun _ _ | EvSetupVirtualenv _ _ _ _ _ | EvSetupVenvs _
  | EvSetupNodeModules _ | EvWriteLines _ _ _ _ => true
  | _ => false
  end.

Definition no_main_call (t : list Event) : bool :=
  forallb (λ ev, negb (is_main_call ev)) t.

Definition is_node_modules (ev : Event) : bool :=
  match ev with
  | EvSetupNodeModules _ => true
  | _ => false
  end.

(** What follows the first call of [setup_node_modules]. *)
Fixpoint since_node_modules (t : list Event) : list Event :=
  match t with
  | [] => []
  | ev :: rest => if is_node_modules ev then rest else since_node_modules rest
  end.

(** The [cp] command lines. *)
Definition copies (t : list Event) : list (list string) :=
  filter (λ argv, argv !! 1%nat = Some "cp") (run_argvs t).

(** The [mkdir] command lines. *)
Definition mkdirs (t : list Event) : list (list string) :=
  filter (λ argv, head argv = Some "mkdir") (run_argvs t).

Section Modes.
Context {lib : ScriptsLib} {inv : Invocation}.

(** The runs that restart the services: those of [--travis] without
    [--production-travis], and those of [--docker]. *)
Definition restarts_services : bool :=
  (TRAVIS && negb PRODUCTION_TRAVIS) || Py.contains "--docker" sys_argv.

(** The virtual environments a run with [--travis] sets up (lines
    137-146). *)
Definition TRAVIS_VIRTUALENVS : list (string * string * bool * list string) :=
  if PY2 then
    [ (PY3_VENV_PATH, Py.os_path_join ZULIP_PATH ["requirements"; "mypy.txt"],
       true, ["-p"; "python3"]);
      (PY2_VENV_PATH,
       Py.os_path_join ZULIP_PATH ["requirements"; "py2_dev.txt"], true, []) ]
  else
    [ (PY3_VENV_PATH,
       Py.os_path_join ZULIP_PATH ["requirements"; "py3_dev.txt"], true,
       ["-p"; "python3"]) ].

(** The last line the script prints. *)
Definition SUCCESS_MESSAGE : string :=
  OKBLUE +:+ "Zulip development environment setup succeeded!" +:+ ENDC.

(** The directories [main] creates, in the order it creates them. *)
Definition DIRECTORIES : list string :=
  [ LOG_DIR_PATH; UPLOAD_DIR_PATH; TEST_UPLOAD_DIR_PATH; COVERAGE_DIR_PATH;
    LINECOVERAGE_DIR_PATH; NODE_TEST_COVERAGE_DIR_PATH ].

(** Their names. *)
Definition DIRECTORY_NAMES : list string :=
  [ "log"; "uploads"; "test_uploads"; "coverage"; "linecoverage-report";
    "node-coverage" ].

(** The contents of the profile after the script has written it. *)
Definition FRAGMENT : string := fold_right String.append "" PROFILE_LINES.

(** A model host on which every step of the script that creates a resource
    finds it there: the step succeeds and leaves the host as it is. *)
Record settled (h : Host.t) : Prop := {
  settled_git : Host.path_exists GIT_PATH h = true;
  settled_arch : is_Some (arch_of (Host.bits h));
  settled_platform :
    platform_supported (Host.lsb_vendor h) (Host.lsb_codename h) = true;
  settled_lsb_release : Host.exec APT_LSB_RELEASE h = (Ok tt, h);
  settled_chdir : Host.chdir ZULIP_PATH h = (Ok tt, h);
  settled_packages :
    ∀ pkgs, APT_DEPENDENCIES !! Host.lsb_codename h = Some pkgs →
            Host.exec (APT_INSTALL ++ pkgs) h = (Ok tt, h);
  settled_profile :
    Host.writelines (expanduser_home "/.bash_profile") "w+" PROFILE_LINES h
    = (Ok tt, h);
  settled_stopwords :
    ∀ g, POSTGRES_VERSION_MAP !! Host.lsb_codename h
           = Some (POSTGRES_VERSION g) →
         Host.exec ["sudo"; "cp"; REPO_STOPWORDS_PATH;
                    TSEARCH_STOPWORDS_PATH g] h = (Ok tt, h);
  settled_directories :
    ∀ d, d ∈ DIRECTORIES → Host.exec ["mkdir"; "-p"; d] h = (Ok tt, h);
}.

End Modes.

(** ** Example invocations and hosts *)

(** [python3 tools/provision.py] from a checkout in [/srv/zulip]. *)
Definition dev_invocation (flags : list string) : Invocation := {|
  PY2 := false;
  sys_argv := "tools/provision.py" :: flags;
  ZULIP_PATH := "/srv/zulip";
  USER_HOME := "/home/zulip";
|}.

(** A machine with a checkout of the repository, a home directory whose
    [.bash_profile] the user has edited, and nothing installed. *)
Definition checkout : gmap (list string) Host.Node :=
  list_to_map
    [ (["srv"], Host.Dir);
      (["srv"; "zulip"], Host.Dir);
      (["srv"; "zulip"; ".git"], Host.Dir);
      (["srv"; "zulip"; "puppet"], Host.Dir);
      (["srv"; "zulip"; "puppet"; "zulip"], Host.Dir);
      (["srv"; "zulip"; "puppet"; "zulip"; "files"], Host.Dir);
      (["srv"; "zulip"; "puppet"; "zulip"; "files"; "postgresql"], Host.Dir);
      (["srv"; "zulip"; "puppet"; "zulip"; "files"; "postgresql";
        "zulip_english.stop"], Host.File "i me my myself");
      (["home"], Host.Dir);
      (["home"; "zulip"], Host.Dir);
      (["home"; "zulip"; ".bash_profile"], Host.File "export EDITOR=vi");
      (["usr"], Host.Dir);
      (["usr"; "share"], Host.Dir);
      (["usr"; "share"; "postgresql"], Host.Dir);
      (["usr"; "share"; "postgresql"; "9.5"], Host.Dir);
      (["usr"; "share"; "postgresql"; "9.5"; "tsearch_data"], Host.Dir) ].

Definition machine (bits vendor codename : string) : Host.t :=
  Host.Mk bits vendor codename [] checkout ∅.

Definition xenial_host : Host.t := machine "64bit" "Ubuntu" "xenial".
Definition debian_host : Host.t := machine "64bit" "Debian" "jessie".

(** A machine with an empty disk. *)
Definition empty_host : Host.t :=
  Host.Mk "64bit" "Ubuntu" "xenial" [] ∅ ∅.

(** Scripted hosts: a checkout on Ubuntu xenial whose calls have the given
    results, one on Debian, one on an ARM machine, and a machine without a
    checkout. *)
Definition xenial_with (results : list (Result unit)) : Scripted.t :=
  Scripted.Mk true "64bit" "Ubuntu" "xenial" false results.
Definition debian_scripted : Scripted.t :=
  Scripted.Mk true "64bit" "Debian" "jessie" false [].
Definition arm_scripted : Scripted.t :=
  Scripted.Mk true "ARM" "Ubuntu" "xenial" false [].
Definition bare_scripted : Scripted.t :=
  Scripted.Mk false "64bit" "Ubuntu" "xenial" false [].


(** A checkout whose [node_modules] is a link that [rm] fails to remove;
    the calls after the [rm] have the given results. *)
Definition stuck_link (results : list (Result unit)) : Scripted.t :=
  Scripted.Mk true "64bit" "Ubuntu" "xenial" true
    (Raise (CalledProcessError 1 RM_NODE_MODULES) :: results).

(** ** Reasoning about runs *)

(** [wp m Q st]: running [m] from [st] ends in a result and a state that
    satisfy [Q]. *)
Definition wp {W A} (m : M W A) (Q : Result A → State W → Prop)
    (st : State W) : Prop :=
  Q (m st).1 (m st).2.

Section WP.
Context {W : Type}.
Implicit Types (st : State W) (w : W) (t : list Event).

Lemma wp_ret {A} (a : A) (Q : Result A → State W → Prop) st :
  Q (Ok a) st → wp (ret a) Q st.
Proof. done. Qed.

Lemma wp_raise {A} e (Q : Result A → State W → Prop) st :
  Q (Raise e) st → wp (raise e) Q st.
Proof. done. Qed.

Lemma wp_bind {A B} (m : M W A) (k : A → M W B) Q st :
  wp m (λ r st', match r with
                 | Ok a => wp (k a) Q st'
                 | Raise e => Q (Raise e) st'
                 end) st →
  wp (bind m k) Q st.
Proof.
  unfold wp, bind. destruct (m st) as [[a|e] st']; simpl; auto.
Qed.

Lemma wp_try {A} (body handler : M W A) Q st :
  wp body (λ r st', match r with
                    | Raise (CalledProcessError _ _) => wp handler Q st'
                    | _ => Q r st'
                    end) st →
  wp (try_except_CalledProcessError body handler) Q st.
Proof.
  unfold wp, try_except_CalledProcessError.
  destruct (body st) as [[a|[]] st']; simpl; auto.
Qed.

Lemma wp_call {A} (f : W → Result A * W) ev Q w t :
  (∀ a w', f w = (Ok a, w') → Q (Ok a) (MkState w' (t ++ [ev (Ok a)]))) →
  (∀ e w', f w = (Raise e, w') →
     Q (Raise e) (MkState w' (t ++ [ev (Raise e)]))) →
  wp (call f ev) Q (MkState w t).
Proof.
  intros Hok Hraise. unfold wp, call, record. simpl.
  destruct (f w) as [[a|e] w'] eqn:E; simpl; auto.
Qed.

Lemma wp_emit ev (Q : Result unit → State W → Prop) w t :
  Q (Ok tt) (MkState w (t ++ [ev])) → wp (emit ev) Q (MkState w t).
Proof. done. Qed.

Lemma wp_ask {A} (f : W → A) (Q : Result A → State W → Prop) w t :
  Q (Ok (f w)) (MkState w t) → wp (ask f) Q (MkState w t).
Proof. done. Qed.

Lemma wp_dict_get {A} (d : gmap string A) key
    (Q : Result A → State W → Prop) st :
  (∀ v, d !! key = Some v → Q (Ok v) st) →
  (d !! key = None → Q (Raise (KeyError key)) st) →
  wp (dict_get d key) Q st.
Proof.
  intros Hs Hn. unfold dict_get. destruct (d !! key); [by apply Hs|by apply Hn].
Qed.

(** A run of the script satisfies what [wp] proves of it. *)
Lemma wp_provision {sys : System W} {lib : ScriptsLib} {inv : Invocation}
    (P : Result Z * W * list Event → Prop) w :
  wp script (λ r st, P (r, world st, trace st)) (MkState w []) →
  P (provision w).
Proof.
  unfold wp, provision. by destruct (script (MkState w [])) as [r st].
Qed.

End WP.

(** One step of symbolic execution. *)
Ltac wp_prim :=
  lazymatch goal with
  | |- wp (bind _ _) _ _ => apply wp_bind
  | |- wp (ret _) _ _ => apply wp_ret
  | |- wp (raise _) _ _ => apply wp_raise
  | |- wp (emit _) _ _ => apply wp_emit
  | |- wp (ask _) _ _ => apply wp_ask
  | |- wp (try_except_CalledProcessError _ _) _ _ => apply wp_try
  end; lazy beta iota.

(** A branch on the flags: decide the flag the condition mentions first. *)
Ltac wp_if :=
  lazymatch goal with
  | |- wp (if ?b then _ else _) _ _ =>
      lazymatch b with
      | true => idtac
      | false => idtac
      | context [TRAVIS] => destruct TRAVIS eqn:?
      | context [PRODUCTION_TRAVIS] => destruct PRODUCTION_TRAVIS eqn:?
      | context [PY2] => destruct PY2 eqn:?
      | _ => destruct b eqn:?
      end
  end; cbn [andb negb]; lazy beta iota.

Ltac wp_unfold :=
  unfold script, module_level, main, add_groonga_repository, npm_install,
    print, logging_critical, sys_exit, architecture, chdir, check_call,
    text_output, run, virtualenv, venvs_main, node_modules, writelines.

Ltac wp_call_step :=
  lazymatch goal with |- wp (call _ _) _ _ => apply wp_call end;
  intros ? ? _; lazy beta iota;
  try lazymatch goal with
      | |- match ?e with CalledProcessError _ _ => _ | _ => _ end =>
          destruct e
      end.

Section Dictionaries.
Context {lib : ScriptsLib}.

Lemma platform_supported_spec (v c : string) :
  platform_supported v c = true ↔
  v = "Ubuntu" ∧ (c = "trusty" ∨ c = "xenial").
Proof.
  unfold platform_supported, SUPPORTED_PLATFORMS, Py.contains.
  destruct (decide (v = "Ubuntu")) as [->|Hv].
  - rewrite lookup_singleton_eq, bool_decide_eq_true.
    rewrite !elem_of_cons, elem_of_nil. naive_solver.
  - rewrite lookup_singleton_ne by done. naive_solver.
Qed.

Lemma postgres_version_spec (c pv : string) :
  POSTGRES_VERSION_MAP !! c = Some pv ↔
  (c = "trusty" ∧ pv = "9.3") ∨ (c = "xenial" ∧ pv = "9.5").
Proof.
  unfold POSTGRES_VERSION_MAP.
  rewrite lookup_insert. case_decide as H1; [naive_solver|].
  rewrite lookup_singleton. case_decide; naive_solver.
Qed.

Lemma apt_dependencies_spec (c : string) (pkgs : list string) :
  APT_DEPENDENCIES !! c = Some pkgs ↔
  (c = "trusty" ∧
   pkgs = UBUNTU_COMMON_APT_DEPENDENCIES ++
     ["postgresql-9.3"; "postgresql-9.3-tsearch-extras";
      "postgresql-9.3-pgroonga"]) ∨
  (c = "xenial" ∧
   pkgs = UBUNTU_COMMON_APT_DEPENDENCIES ++
     ["postgresql-9.5"; "postgresql-9.5-tsearch-extras";
      "postgresql-9.5-pgroonga"]).
Proof.
  unfold APT_DEPENDENCIES.
  rewrite lookup_insert. case_decide as H1; [naive_solver|].
  rewrite lookup_singleton. case_decide; naive_solver.
Qed.

Lemma supported_has_version (v c : string) :
  platform_supported v c = true → is_Some (POSTGRES_VERSION_MAP !! c).
Proof.
  intros [_ [->| ->]]%platform_supported_spec; eexists;
    apply postgres_version_spec; naive_solver.
Qed.

End Dictionaries.

Section ModuleLevel.
Context {W : Type} {sys : System W} {lib : ScriptsLib} {inv : Invocation}.

Lemma wp_mono {A} (m : M W A) (Q Q' : Result A → State W → Prop) st :
  wp m Q st → (∀ r st', Q r st' → Q' r st') → wp m Q' st.
Proof. unfold wp. auto. Qed.

(** The module-level code ends in one of the ways of [module_level_ends]. *)
Lemma module_level_wp (w : W) :
  wp module_level (module_level_ends w) (MkState w []).
Proof.
  wp_unfold. repeat wp_prim. fold GIT_PATH.
  destruct (os_path_exists GIT_PATH w) eqn:Hgit; cbn [negb].
  2:{ repeat wp_prim. by constructor. }
  repeat wp_prim. cbn [app].
  assert (Harch : ∀ Q : Result string → State W → Prop,
    (arch_of (platform_architecture w) = None →
       Q (Raise (SystemExit 1))
         (MkState w [EvArchitecture (platform_architecture w);
                     EvLogCritical ARCH_MESSAGE])) →
    (∀ a, arch_of (platform_architecture w) = Some a →
       Q (Ok a) (MkState w [EvArchitecture (platform_architecture w)])) →
    wp (if String.eqb (platform_architecture w) "64bit"
        then ret "amd64"
        else if String.eqb (platform_architecture w) "32bit"
             then ret "i386"
             else bind (emit (EvLogCritical ARCH_MESSAGE))
                    (λ _, raise (SystemExit 1)))
       Q (MkState w [EvArchitecture (platform_architecture w)])).
  { intros Q Hn Hs. unfold arch_of in *.
    destruct (String.eqb (platform_architecture w) "64bit");
      [by apply wp_ret, Hs|].
    destruct (String.eqb (platform_architecture w) "32bit");
      [by apply wp_ret, Hs|].
    repeat wp_prim. by apply Hn. }
  apply Harch; clear Harch.
  { intros Ha. by constructor. }
  intros a Ha. fold APT_UPDATE APT_LSB_RELEASE.
  wp_prim. apply wp_call; [intros [] w1 E1|intros e w1 E1];
    lazy beta iota; cbn [app].
  2:{ by eapply ends_update. }
  wp_prim. apply wp_call; [intros [] w2 E2|intros e w2 E2];
    lazy beta iota; cbn [app].
  2:{ by eapply ends_lsb_release. }
  wp_prim. apply wp_call; [intros v w3 E3|intros e w3 E3];
    lazy beta iota; cbn [app].
  2:{ by eapply ends_vendor. }
  wp_prim. apply wp_call; [intros c w4 E4|intros e w4 E4];
    lazy beta iota; cbn [app].
  2:{ by eapply ends_codename. }
  wp_prim.
  destruct (platform_supported v c) eqn:Hsup; cbn [negb].
  2:{ repeat wp_prim. cbn [app]. by eapply ends_unsupported. }
  repeat wp_prim.
  destruct (supported_has_version v c Hsup) as [pv Hpv].
  apply wp_dict_get; [|congruence].
  intros pv' Hpv'. wp_prim. rewrite Hpv in Hpv'. simplify_eq.
  by eapply ends_ready.
Qed.

(** A run is the module-level code followed, when it gets through, by
    [main] and [sys.exit]. *)
Lemma wp_script (Q : Result Z → State W → Prop) (w : W) :
  (∀ r st, module_level_ends w r st →
     match r with
     | Ok g => wp (main g) Q st
     | Raise e => Q (Raise e) st
     end) →
  wp script Q (MkState w []).
Proof.
  intros HQ. unfold script. apply wp_bind.
  eapply wp_mono; [apply module_level_wp|].
  intros [g|e] st Hends; by apply HQ in Hends.
Qed.

End ModuleLevel.

(** ** The platform gate *)

Section PlatformGate.
Context {W : Type} {sys : System W} {lib : ScriptsLib} {inv : Invocation}.

Lemma arch_of_None (bits : string) :
  arch_of bits = None ↔ bits ≠ "64bit" ∧ bits ≠ "32bit".
Proof.
  unfold arch_of.
  destruct (String.eqb_spec bits "64bit"); [naive_solver|].
  destruct (String.eqb_spec bits "32bit"); naive_solver.
Qed.


(** C1, as amended: on a checkout, a CPU architecture that is neither 64-bit
    nor 32-bit makes the script exit with status 1 before it spawns any
    command; a platform outside [SUPPORTED_PLATFORMS] makes it exit with
    status 1 after the four commands that detect the platform, the second
    of which installs [lsb-release] and [software-properties-common], and
    before anything of [main]. *)
Theorem unsupported_host_exits_before_main (w : W) :
  os_path_exists GIT_PATH w = true →
  (platform_architecture w ≠ "64bit" →
   platform_architecture w ≠ "32bit" →
   provision w =
     (Raise (SystemExit 1), w,
      [ EvArchitecture (platform_architecture w);
        EvLogCritical ARCH_MESSAGE ])
   ∧ exit_status (provision w).1.1 = 1
   ∧ spawned (provision w).2 = [])
  ∧ (∀ a v c w1 w2 w3 w4,
       arch_of (platform_architecture w) = Some a →
       subprocess_check_call APT_UPDATE w = (Ok tt, w1) →
       subprocess_check_call APT_LSB_RELEASE w1 = (Ok tt, w2) →
       subprocess_text_output ["lsb_release"; "-is"] w2 = (Ok v, w3) →
       subprocess_text_output ["lsb_release"; "-cs"] w3 = (Ok c, w4) →
       platform_supported v c = false →
       provision w =
         (Raise (SystemExit 1), w4,
          [ EvArchitecture (platform_architecture w);
            EvCheckCall APT_UPDATE (Ok tt);
            EvCheckCall APT_LSB_RELEASE (Ok tt);
            EvTextOutput ["lsb_release"; "-is"] (Ok v);
            EvTextOutput ["lsb_release"; "-cs"] (Ok c);
            EvLogCritical
              ("Unsupported platform: " +:+ v +:+ " " +:+ c) ])
       ∧ exit_status (provision w).1.1 = 1
       ∧ spawned (provision w).2 =
           [ APT_UPDATE; APT_LSB_RELEASE;
             ["lsb_release"; "-is"]; ["lsb_release"; "-cs"] ]).
Proof.
  intros Hgit. split.
  - intros H64 H32.
    assert (Ha : arch_of (platform_architecture w) = None)
      by by apply arch_of_None.
    apply (wp_provision
             (λ p, p = _ ∧ exit_status p.1.1 = 1 ∧ spawned p.2 = [])).
    apply wp_script. intros r st Hends.
    destruct Hends; try congruence. done.
  - intros a v c w1 w2 w3 w4 Ha E1 E2 E3 E4 Hsup.
    apply (wp_provision
             (λ p, p = _ ∧ exit_status p.1.1 = 1 ∧ spawned p.2 = _)).
    apply wp_script. intros r st Hends.
    destruct Hends; try congruence.
    cbn [world trace]. repeat split. congruence.
Qed.

End PlatformGate.

(** A checkout on an ARM machine, and one on Debian. *)
Lemma unsupported_host_exits_before_main_witness :
  spawned (provision (inv := dev_invocation []) arm_scripted).2 = []
  ∧ exit_status (provision (inv := dev_invocation []) debian_scripted).1.1 = 1.
Proof.
  split.
  - refine (proj2 (proj2 (proj1
      (unsupported_host_exits_before_main (inv := dev_invocation [])
         arm_scripted _) _ _))); by vm_compute.
  - refine (proj1 (proj2 (proj2
      (unsupported_host_exits_before_main (inv := dev_invocation [])
         debian_scripted _) "amd64" "Debian" "jessie"
         debian_scripted debian_scripted debian_scripted debian_scripted
         _ _ _ _ _ _))); vm_compute; reflexivity.
Defined.

(** C1, as stated, fails on Debian: the script exits with status 1 only after
    [apt-get install] has run and put two packages on the machine. *)
Lemma unsupported_platform_installs_first :
  let '(r, h, t) := provision (inv := dev_invocation []) debian_host in
  platform_supported "Debian" "jessie" = false
  ∧ exit_status r = 1
  ∧ EvCheckCall
      ["sudo"; "apt-get"; "install"; "-y"; "lsb-release";
       "software-properties-common"] (Ok tt) ∈ t
  ∧ Host.packages debian_host = ∅
  ∧ elements (Host.packages h) ≠ [].
Proof.
  vm_compute. repeat split; try done.
  do 2 apply list_elem_of_further. apply list_elem_of_here.
Qed.


(** ** The two retried operations *)

Section Retry.
Context {W : Type} {sys : System W} {lib : ScriptsLib} {inv : Invocation}.

(** The two [try] blocks when the attempt that exits non-zero is the
    registration of the repository, or [setup_node_modules] (after the
    [node_modules] link, if there was one, has been removed): the block
    prints one warning and makes one more attempt, whose result is the
    block's result, success if it succeeds, its own error, unchanged, if it
    fails.  The trace grows by the two attempts and the warning between
    them, and by nothing else. *)
Theorem second_attempt_decides (st : State W) :
  (∀ code cmd w1 r2 w2,
     zulip_tools_run GROONGA_PPA (world st)
       = (Raise (CalledProcessError code cmd), w1) →
     zulip_tools_run GROONGA_PPA w1 = (r2, w2) →
     add_groonga_repository st =
       (r2, MkState w2
              (trace st ++
               [ EvRun GROONGA_PPA (Raise (CalledProcessError code cmd));
                 EvPrint GROONGA_WARNING;
                 EvRun GROONGA_PPA r2 ])))
  ∧ (∀ code cmd w1 r2 w2,
       os_path_islink "node_modules" (world st) = false →
       setup_node_modules (world st)
         = (Raise (CalledProcessError code cmd), w1) →
       setup_node_modules w1 = (r2, w2) →
       npm_install st =
         (r2, MkState w2
                (trace st ++
                 [ EvSetupNodeModules
                     (Raise (CalledProcessError code cmd));
                   EvPrint NPM_WARNING;
                   EvSetupNodeModules r2 ])))
  ∧ (∀ code cmd w0 w1 r2 w2,
       os_path_islink "node_modules" (world st) = true →
       zulip_tools_run RM_NODE_MODULES (world st) = (Ok tt, w0) →
       setup_node_modules w0
         = (Raise (CalledProcessError code cmd), w1) →
       setup_node_modules w1 = (r2, w2) →
       npm_install st =
         (r2, MkState w2
                (trace st ++
                 [ EvRun RM_NODE_MODULES (Ok tt);
                   EvSetupNodeModules
                     (Raise (CalledProcessError code cmd));
                   EvPrint NPM_WARNING;
                   EvSetupNodeModules r2 ]))).
Proof.
  destruct st as [w t]. repeat split.
  - intros code cmd w1 r2 w2 E1 E2. cbn [world] in E1.
    unfold add_groonga_repository, try_except_CalledProcessError, run,
      print, call, emit, bind, record.
    cbn [world trace]. rewrite E1. cbn [world trace]. rewrite E2.
    by rewrite <- !app_assoc.
  - intros code cmd w1 r2 w2 Hlink E1 E2. cbn [world] in Hlink, E1.
    unfold npm_install, try_except_CalledProcessError, node_modules,
      print, call, emit, ask, ret, bind, record.
    cbn [world trace]. rewrite Hlink. cbn [world trace].
    rewrite E1. cbn [world trace]. rewrite E2.
    by rewrite <- !app_assoc.
  - intros code cmd w0 w1 r2 w2 Hlink E0 E1 E2. cbn [world] in Hlink, E0.
    unfold RM_NODE_MODULES in *.
    unfold npm_install, try_except_CalledProcessError, node_modules, run,
      print, call, emit, ask, ret, bind, record.
    cbn [world trace]. rewrite Hlink. cbn [world trace].
    rewrite E0. cbn [world trace].
    rewrite E1. cbn [world trace]. rewrite E2.
    by rewrite <- !app_assoc.
Qed.

End Retry.

(** The registration fails once and then succeeds; [npm install] fails
    twice. *)
Lemma second_attempt_decides_witness :
  add_groonga_repository 
    (MkState (xenial_with [Raise (CalledProcessError 1 GROONGA_PPA)]) [])
  = (Ok tt,
     MkState (xenial_with [])
       [ EvRun GROONGA_PPA (Raise (CalledProcessError 1 GROONGA_PPA));
         EvPrint GROONGA_WARNING;
         EvRun GROONGA_PPA (Ok tt) ])
  ∧ npm_install 
      (MkState (xenial_with [Raise (CalledProcessError 1 ["npm"]);
                             Raise (CalledProcessError 2 ["npm"])]) [])
    = (Raise (CalledProcessError 2 ["npm"]),
       MkState (xenial_with [])
         [ EvSetupNodeModules (Raise (CalledProcessError 1 ["npm"]));
           EvPrint NPM_WARNING;
           EvSetupNodeModules (Raise (CalledProcessError 2 ["npm"])) ]).
Proof.
  split.
  - exact (proj1 (second_attempt_decides 
      (MkState (xenial_with [Raise (CalledProcessError 1 GROONGA_PPA)]) []))
      1 GROONGA_PPA (xenial_with []) (Ok tt) (xenial_with [])
      eq_refl eq_refl).
  - exact (proj1 (proj2 (second_attempt_decides 
      (MkState (xenial_with [Raise (CalledProcessError 1 ["npm"]);
                             Raise (CalledProcessError 2 ["npm"])]) [])))
      1 ["npm"] (xenial_with [Raise (CalledProcessError 2 ["npm"])])
      (Raise (CalledProcessError 2 ["npm"])) (xenial_with [])
      eq_refl eq_refl eq_refl).
Defined.

(** C2, on the host where the claim fails: [node_modules] is a link and
    [sudo rm -f node_modules] exits non-zero.  The [rm] is inside the [try]
    of [npm install] (line 209), so the handler written for a failed
    [npm install] takes over: it prints its warning and calls
    [setup_node_modules], once.  When that call fails, its error is the
    block's result after one attempt of [npm install], not two; when it
    succeeds, the block succeeds after one attempt.  The link is not
    removed. *)
Theorem failed_link_removal_leaves_one_attempt :
  npm_install
    (MkState (stuck_link [Raise (CalledProcessError 2 ["npm"; "install"])]) [])
  = (Raise (CalledProcessError 2 ["npm"; "install"]),
     MkState (Scripted.Mk true "64bit" "Ubuntu" "xenial" true [])
       [ EvRun RM_NODE_MODULES (Raise (CalledProcessError 1 RM_NODE_MODULES));
         EvPrint NPM_WARNING;
         EvSetupNodeModules
           (Raise (CalledProcessError 2 ["npm"; "install"])) ])
  ∧ npm_install (MkState (stuck_link [Ok tt]) [])
    = (Ok tt,
       MkState (Scripted.Mk true "64bit" "Ubuntu" "xenial" true [])
         [ EvRun RM_NODE_MODULES
             (Raise (CalledProcessError 1 RM_NODE_MODULES));
           EvPrint NPM_WARNING;
           EvSetupNodeModules (Ok tt) ]).
Proof. split; reflexivity. Qed.

(** ** Whole runs *)

Ltac wp_dict :=
  lazymatch goal with |- wp (dict_get _ _) _ _ => apply wp_dict_get end;
  [intros ? ?|intros ?]; lazy beta iota.

(** Name the command lines and messages, so that the goals stay small. *)
Ltac hide_literals :=
  repeat match goal with
         | |- context [@cons string ?x ?l] =>
             let c := fresh "argv" in set (c := @cons string x l)
         | |- context [String ?x ?l] =>
             let c := fresh "str" in set (c := String x l)
         end.

(** Run [main] symbolically: every call either raises, which ends the run,
    or returns, and the run goes on. *)
Ltac wp_main :=
  wp_unfold; hide_literals;
  repeat first [wp_prim | wp_if | wp_call_step | wp_dict].

(** Run the whole script symbolically and leave one goal per way it ends. *)
Ltac wp_script_ends :=
  apply wp_script;
  let Hends := fresh "Hends" in
  intros ? ? Hends; destruct Hends; [..|wp_main].

Section WholeRuns.
Context {W : Type} {sys : System W} {lib : ScriptsLib} {inv : Invocation}.


(** C4, as amended: a run that completes writes one file, the user's
    [.bash_profile], opened in mode ["w+"], which truncates it: the two
    lines of the fragment become its whole contents. *)
Theorem profile_is_overwritten (w : W) :
  (provision w).1.1 = Ok 0 →
  writes (provision w).2 =
    [ (expanduser_home "/.bash_profile", "w+", PROFILE_LINES) ].
Proof.
  apply (wp_provision
           (λ p, p.1.1 = Ok 0 →
                 writes p.2 =
                   [ (expanduser_home "/.bash_profile", "w+",
                      PROFILE_LINES) ])).
  wp_script_ends.
  all: cbn [fst snd]; intros Hr; try discriminate Hr.
  all: vm_compute; reflexivity.
Qed.

(** C10, as amended: the database cluster is dropped and created again
    exactly in the runs that reach the branch of [--docker], which needs
    the flag and that the branch of [--travis] without
    [--production-travis] is not taken.  There, a run that completes has
    issued [pg_dropcluster --stop] and then [pg_createcluster] for the
    [main] cluster of the version of the detected codename, and restarted
    the three services; everywhere else no cluster command is issued. *)
Theorem cluster_recreated_in_docker_branch (w : W) :
  let '(r, _, t) := provision w in
  (docker_branch = false → cluster_commands t = [])
  ∧ (docker_branch = true → r = Ok 0 →
     ∃ c pv,
       detected_codename t = Some c
       ∧ POSTGRES_VERSION_MAP !! c = Some pv
       ∧ cluster_commands t = [DROP_CLUSTER pv; CREATE_CLUSTER pv]
       ∧ restarted t = ["rabbitmq-server"; "redis-server"; "memcached"]).
Proof.
  apply (wp_provision
           (λ p, let '(r, _, t) := p in
                 (docker_branch = false → cluster_commands t = [])
                 ∧ (docker_branch = true → r = Ok 0 →
                    ∃ c pv,
                      detected_codename t = Some c
                      ∧ POSTGRES_VERSION_MAP !! c = Some pv
                      ∧ cluster_commands t
                        = [DROP_CLUSTER pv; CREATE_CLUSTER pv]
                      ∧ restarted t
                        = ["rabbitmq-server"; "redis-server";
                           "memcached"]))).
  unfold docker_branch. wp_script_ends.
  all: split; intros Hb;
    [try (vm_compute; reflexivity)|intros Hr; try discriminate Hr].
  all: try discriminate Hb.
  all: do 2 eexists; split; [|split; [eassumption|]].
  all: by vm_compute.
Qed.

(** The packages [main] installs are those [APT_DEPENDENCIES] lists for the
    detected codename. *)
Lemma install_batch_of_codename (w : W) :
  match install_batches (provision w).2 with
  | [] => True
  | [batch] =>
      ∃ c, detected_codename (provision w).2 = Some c
           ∧ APT_DEPENDENCIES !! c = Some batch
  | _ => False
  end.
Proof.
  apply (wp_provision
           (λ p, match install_batches p.2 with
                 | [] => True
                 | [batch] =>
                     ∃ c, detected_codename p.2 = Some c
                          ∧ APT_DEPENDENCIES !! c = Some batch
                 | _ => False
                 end)).
  wp_script_ends.
  all: cbn [snd];
    lazymatch goal with
    | |- context [install_batches ?t] =>
        let b := eval vm_compute in (install_batches t) in
        change (install_batches t) with b
    end; cbn iota; try exact I.
  all: lazymatch goal with
       | H : APT_DEPENDENCIES !! codename _ = Some _ |- _ =>
           cbn [codename] in H;
           lazymatch type of H with _ !! ?c = _ => exists c end;
           split; [by vm_compute|exact H]
       end.
Qed.

End WholeRuns.


(** ** The dependency catalog *)

(** C6: the package list is a function of the detected codename alone.  Two
    runs, on any two hosts and with any flags, that detect the same codename
    hand the same list, in the same order, to the package-installation
    command: the entry of [APT_DEPENDENCIES] for that codename.  Every
    supported platform has an entry. *)
Theorem resolution_is_deterministic {lib : ScriptsLib}
    {W1 W2 : Type} {sys1 : System W1} {sys2 : System W2}
    (inv1 inv2 : Invocation) (w1 : W1) (w2 : W2) :
  let t1 := (provision (inv := inv1) w1).2 in
  let t2 := (provision (inv := inv2) w2).2 in
  (∀ v c, platform_supported v c = true → is_Some (APT_DEPENDENCIES !! c))
  ∧ (∀ c batch1 batch2,
       detected_codename t1 = Some c →
       detected_codename t2 = Some c →
       batch1 ∈ install_batches t1 →
       batch2 ∈ install_batches t2 →
       batch1 = batch2 ∧ APT_DEPENDENCIES !! c = Some batch1).
Proof.
  intros t1 t2. split.
  - intros v c [_ [->| ->]]%platform_supported_spec; eexists;
      apply apt_dependencies_spec; [left|right]; done.
  - intros c batch1 batch2 Hc1 Hc2 Hb1 Hb2.
    pose proof (install_batch_of_codename (inv := inv1) w1) as H1.
    pose proof (install_batch_of_codename (inv := inv2) w2) as H2.
    fold t1 in H1. fold t2 in H2.
    destruct (install_batches t1) as [|b1 [|]]; [by inversion Hb1| |done].
    destruct (install_batches t2) as [|b2 [|]]; [by inversion Hb2| |done].
    apply list_elem_of_singleton in Hb1 as ->.
    apply list_elem_of_singleton in Hb2 as ->.
    destruct H1 as (c1 & Hd1 & Ha1), H2 as (c2 & Hd2 & Ha2).
    rewrite Hc1 in Hd1. rewrite Hc2 in Hd2. simplify_eq.
    split; [congruence|done].
Qed.

(** C7: the list for Ubuntu xenial holds the database engine in the version
    [POSTGRES_VERSION_MAP] gives for xenial, [postgresql-9.5], and differs
    from the list for trusty; the engine of xenial is not in the list for
    trusty unless [VENV_DEPENDENCIES] brings it. *)
Theorem xenial_resolves_to_its_postgresql {lib : ScriptsLib} :
  platform_supported "Ubuntu" "xenial" = true
  ∧ ∃ xenial trusty version,
      APT_DEPENDENCIES !! "xenial" = Some xenial
      ∧ APT_DEPENDENCIES !! "trusty" = Some trusty
      ∧ POSTGRES_VERSION_MAP !! "xenial" = Some version
      ∧ version = "9.5"
      ∧ "postgresql-" +:+ version ∈ xenial
      ∧ xenial ≠ trusty
      ∧ ("postgresql-" +:+ version ∉ VENV_DEPENDENCIES →
         "postgresql-" +:+ version ∉ trusty).
Proof.
  split; [by apply platform_supported_spec; eauto|].
  eexists _, _, "9.5". split; [apply apt_dependencies_spec; right; done|].
  split; [apply apt_dependencies_spec; left; done|].
  split; [apply postgres_version_spec; right; done|].
  split; [done|]. split; [|split].
  - apply elem_of_app. right. apply list_elem_of_here.
  - intros Heq%app_inv_head. discriminate Heq.
  - intros Hvenv. unfold UBUNTU_COMMON_APT_DEPENDENCIES.
    rewrite !elem_of_app. intros [[Hin|Hin]|Hin]; [| done |].
    + rewrite !elem_of_cons, elem_of_nil in Hin.
      repeat destruct Hin as [Hin|Hin];
        first [discriminate Hin|destruct Hin].
    + rewrite !elem_of_cons, elem_of_nil in Hin.
      repeat destruct Hin as [Hin|Hin];
        first [discriminate Hin|destruct Hin].
Qed.

(** ** The directory tree of the model host *)

Section Mkdir.
Import Host.
Implicit Types (f : gmap (list string) Node) (base segs p q : list string).

Lemma all_dirs_cons f base seg rest :
  all_dirs f base (seg :: rest) ↔
  f !! (base ++ [seg]) = Some Dir ∧ all_dirs f (base ++ [seg]) rest.
Proof.
  unfold all_dirs. split.
  - intros H. split.
    + apply (H 1%nat). simpl. lia.
    + intros k Hk. rewrite <- app_assoc. apply (H (S k)). simpl. lia.
  - intros [H1 H] [|k] Hk; [lia|]. simpl in *.
    destruct k as [|k]; [by rewrite take_0|].
    specialize (H (S k)). rewrite <- app_assoc in H. apply H. lia.
Qed.

Lemma mkdir_p_from_all_dirs f base segs :
  all_dirs f base segs → mkdir_p_from base segs f = Some f.
Proof.
  revert base. induction segs as [|seg rest IH]; intros base H; [done|].
  apply all_dirs_cons in H as [H1 H]. simpl. rewrite H1. by apply IH.
Qed.

Lemma mkdir_p_from_spec f f' base segs :
  mkdir_p_from base segs f = Some f' →
  all_dirs f' base segs
  ∧ (∀ q x, f !! q = Some x → f' !! q = Some x)
  ∧ (∀ q, f !! q = None → is_Some (f' !! q) →
       f' !! q = Some Dir
       ∧ ∃ k, (0 < k ≤ length segs)%nat ∧ q = base ++ take k segs).
Proof.
  revert base f. induction segs as [|seg rest IH]; intros base f Hm.
  - simpl in Hm. simplify_eq. split; [intros k; simpl; lia|].
    split; [done|]. intros q Hq [x Hx]. congruence.
  - simpl in Hm.
    destruct (f !! (base ++ [seg])) as [[|c]|] eqn:Hp; [| done |].
    + apply IH in Hm as (Hd & Hpres & Hnew).
      split; [apply all_dirs_cons; split; [by apply Hpres|done]|].
      split; [done|]. intros q Hq Hs.
      destruct (Hnew q Hq Hs) as (? & k & Hk & ->). split; [done|].
      exists (S k). simpl. rewrite <- app_assoc. split; [lia|done].
    + apply IH in Hm as (Hd & Hpres & Hnew).
      assert (Hdir : f' !! (base ++ [seg]) = Some Dir)
        by (apply Hpres; apply lookup_insert_eq).
      split; [apply all_dirs_cons; split; done|].
      split.
      * intros q x Hq. apply Hpres. rewrite lookup_insert_ne; [done|].
        intros <-. congruence.
      * intros q Hq Hs.
        destruct (decide (q = base ++ [seg])) as [->|Hne].
        { split; [done|]. exists 1%nat. simpl. rewrite take_0. split; [lia|done]. }
        destruct (Hnew q) as (? & k & Hk & ->); [by rewrite lookup_insert_ne|done|].
        split; [done|]. exists (S k). simpl. rewrite <- app_assoc. split; [lia|done].
Qed.

Lemma mkdir_p_from_idempotent f f' base segs :
  mkdir_p_from base segs f = Some f' → mkdir_p_from base segs f' = Some f'.
Proof.
  intros (Hd & _)%mkdir_p_from_spec. by apply mkdir_p_from_all_dirs.
Qed.

Lemma mkdir_p_from_succeeds f base segs :
  (∀ k c, (0 < k ≤ length segs)%nat →
          f !! (base ++ take k segs) ≠ Some (File c)) →
  is_Some (mkdir_p_from base segs f).
Proof.
  revert base f. induction segs as [|seg rest IH]; intros base f H; [by eexists|].
  simpl.
  assert (Hrest : ∀ g : gmap (list string) Node, (∀ q, q ≠ base ++ [seg] → g !! q = f !! q) →
    ∀ k c, (0 < k ≤ length rest)%nat →
      g !! ((base ++ [seg]) ++ take k rest) ≠ Some (File c)).
  { intros g Hg k c Hk. rewrite Hg.
    - rewrite <- app_assoc. apply (H (S k)). simpl. lia.
    - intros Heq. apply (f_equal length) in Heq.
      rewrite !length_app, length_take in Heq. simpl in Heq. lia. }
  destruct (f !! (base ++ [seg])) as [[|c]|] eqn:Hp.
  - apply IH, Hrest. done.
  - exfalso. apply (H 1%nat c); [simpl; lia|]. by rewrite <- Hp.
  - apply IH, Hrest. intros q Hq. by rewrite lookup_insert_ne.
Qed.

Lemma parent_snoc q seg : parent (q ++ [seg]) = q.
Proof.
  unfold parent. rewrite length_app. simpl.
  replace (length q + 1 - 1)%nat with (length q) by lia.
  by rewrite take_app_length.
Qed.

Lemma wf_alt f :
  wf f ↔ ∀ q seg, q ≠ [] → is_Some (f !! (q ++ [seg])) → f !! q = Some Dir.
Proof.
  unfold wf. split.
  - intros Hwf q seg Hq [x Hx].
    apply Hwf in Hx. rewrite parent_snoc in Hx. by destruct Hx.
  - intros H q x Hx.
    destruct q as [|s q _] using rev_ind; [by left|].
    rewrite parent_snoc. destruct (decide (q = [])); [by left|].
    right. apply (H q s); [done|by rewrite Hx].
Qed.

Lemma wf_prefix_dirs f p :
  wf f → is_Some (f !! p) →
  ∀ k, (0 < k < length p)%nat → f !! take k p = Some Dir.
Proof.
  intros Hwf0. pose proof (proj1 (wf_alt f) Hwf0) as Hwf. clear Hwf0.
  induction p as [|seg p IH] using rev_ind; intros Hs k Hk.
  { simpl in Hk. lia. }
  rewrite length_app in Hk. simpl in Hk.
  assert (Hp : f !! p = Some Dir).
  { apply (Hwf p seg); [|done]. intros ->. simpl in Hk. lia. }
  rewrite take_app_le by lia.
  destruct (decide (k = length p)) as [->|Hne]; [by rewrite firstn_all|].
  apply IH; [by rewrite Hp|lia].
Qed.

Lemma wf_all_dirs f p :
  wf f → is_dir f p = true → all_dirs f [] p.
Proof.
  intros Hwf Hd k Hk. simpl.
  destruct p as [|seg p]; [simpl in Hk; lia|].
  unfold is_dir in Hd.
  destruct (f !! (seg :: p)) as [[|?]|] eqn:Hp; try done.
  destruct (decide (k = length (seg :: p))) as [->|Hne]; [by rewrite firstn_all|].
  apply wf_prefix_dirs; [done|by rewrite Hp|lia].
Qed.

Lemma mkdir_p_from_wf f f' base segs :
  wf f → (base = [] ∨ f !! base = Some Dir) →
  mkdir_p_from base segs f = Some f' → wf f'.
Proof.
  revert base f. induction segs as [|seg rest IH]; intros base f Hwf Hb Hm.
  { simpl in Hm. by simplify_eq. }
  simpl in Hm.
  destruct (f !! (base ++ [seg])) as [[|c]|] eqn:Hp; [| done |].
  - eapply IH; [done| |done]. by right.
  - eapply IH; [| |done].
    + apply wf_alt. intros q s Hq Hs.
      pose proof (proj1 (wf_alt f) Hwf) as Hwf'.
      destruct (decide (q = base ++ [seg])) as [->|Hne];
        [apply lookup_insert_eq|].
      rewrite lookup_insert_ne by done.
      destruct (decide (q ++ [s] = base ++ [seg])) as [Heq|Hne'].
      * apply app_inj_tail in Heq as [-> ->]. by destruct Hb.
      * rewrite lookup_insert_ne in Hs by done. by apply (Hwf' q s).
    + right. apply lookup_insert_eq.
Qed.

Lemma exec_mkdir_p (h : Host.t) (path : string) :
  exec ["mkdir"; "-p"; path] h =
    match mkdir_p (resolve h path) (fs h) with
    | Some f' => (Ok tt, with_fs h f')
    | None => failed ["mkdir"; "-p"; path] h
    end.
Proof. reflexivity. Qed.

Lemma with_fs_same (h : Host.t) : with_fs h (fs h) = h.
Proof. by destruct h. Qed.

(** C8: [mkdir -p], as the script runs it, is idempotent.  On a directory
    tree in which no segment of the path is a file, it succeeds and makes
    every segment of the path a directory, and a second invocation succeeds
    and changes nothing; whatever the first invocation did, a second one
    does the same and leaves the host as the first left it; and on a path
    that is already a directory it succeeds and changes nothing. *)
Theorem ensure_directory_is_idempotent (h : Host.t) (path : string) :
  wf (fs h) →
  let argv := ["mkdir"; "-p"; path] in
  (unobstructed (fs h) (resolve h path) →
     ∃ h1, zulip_tools_run argv h = (Ok tt, h1)
           ∧ zulip_tools_run argv h1 = (Ok tt, h1)
           ∧ all_dirs (fs h1) [] (resolve h path)
           ∧ wf (fs h1))
  ∧ (∀ r h1, zulip_tools_run argv h = (r, h1) →
             zulip_tools_run argv h1 = (r, h1))
  ∧ (is_dir (fs h) (resolve h path) = true →
     zulip_tools_run argv h = (Ok tt, h)).
Proof.
  intros Hwf argv. unfold argv. cbn [zulip_tools_run host_system].
  rewrite exec_mkdir_p. unfold mkdir_p. repeat split.
  - intros Hun.
    destruct (mkdir_p_from_succeeds (fs h) [] (resolve h path))
      as [f' Hf'].
    { intros k c _. apply Hun. }
    rewrite Hf'. exists (with_fs h f'). split; [done|].
    rewrite exec_mkdir_p. unfold mkdir_p.
    change (resolve (with_fs h f') path) with (resolve h path).
    cbn [fs with_fs].
    rewrite (mkdir_p_from_idempotent _ _ _ _ Hf').
    split; [by destruct h|].
    split; [by apply mkdir_p_from_spec in Hf' as (? & _)|].
    eapply mkdir_p_from_wf; [done|by left|done].
  - intros r h1 Hrun.
    destruct (mkdir_p_from [] (resolve h path) (fs h)) as [f'|] eqn:Hf'.
    + simplify_eq. rewrite exec_mkdir_p. unfold mkdir_p.
      change (resolve (with_fs h f') path) with (resolve h path).
      cbn [fs with_fs].
      rewrite (mkdir_p_from_idempotent _ _ _ _ Hf'). by destruct h.
    + unfold failed in Hrun. simplify_eq.
      rewrite exec_mkdir_p. unfold mkdir_p. by rewrite Hf'.
  - intros Hd. rewrite mkdir_p_from_all_dirs by by apply wf_all_dirs.
    by rewrite with_fs_same.
Qed.

End Mkdir.


(** Four directories made on an empty disk. *)
Lemma ensure_directory_is_idempotent_witness :
  ∃ h1, zulip_tools_run ["mkdir"; "-p"; "/srv/zulip/var/log"] empty_host
          = (Ok tt, h1)
        ∧ zulip_tools_run ["mkdir"; "-p"; "/srv/zulip/var/log"] h1
          = (Ok tt, h1).
Proof.
  destruct (ensure_directory_is_idempotent empty_host "/srv/zulip/var/log")
    as [H _].
  { apply map_Forall_empty. }
  destruct H as (h1 & H1 & H2 & _).
  { intros k c. cbn [Host.fs empty_host]. by rewrite lookup_empty. }
  by exists h1.
Defined.

(** ** Runs on the example hosts *)

(** C4, as stated, fails: the profile the user had is gone after the run. *)
Lemma profile_contents_are_replaced :
  let '(r, h, _) := provision (inv := dev_invocation []) xenial_host in
  r = Ok 0
  ∧ Host.fs xenial_host !! ["home"; "zulip"; ".bash_profile"]
    = Some (Host.File "export EDITOR=vi")
  ∧ Host.fs h !! ["home"; "zulip"; ".bash_profile"]
    = Some (Host.File
              ("source .bashrc" +:+ Py.LF +:+
               "source /srv/zulip-py3-venv/bin/activate" +:+ Py.LF)).
Proof. vm_compute. done. Qed.

Lemma profile_is_overwritten_witness :
  writes (provision (inv := dev_invocation []) (xenial_with [])).2 =
    [ ("/home/zulip/.bash_profile", "w+",
       [ "source .bashrc" +:+ Py.LF;
         "source /srv/zulip-py3-venv/bin/activate" +:+ Py.LF ]) ].
Proof.
  refine (profile_is_overwritten (inv := dev_invocation [])
            (xenial_with []) _).
  by vm_compute.
Defined.

(** C10, as stated, fails: with [--docker] and [--travis] the run completes
    without touching the cluster. *)
Lemma docker_with_travis_keeps_the_cluster :
  let '(r, _, t) :=
    provision (inv := dev_invocation ["--docker"; "--travis"])
      (xenial_with []) in
  r = Ok 0
  ∧ "--docker" ∈ sys_argv (Invocation := dev_invocation ["--docker"; "--travis"])
  ∧ cluster_commands t = []
  ∧ restarted t = ["rabbitmq-server"; "redis-server"; "memcached"].
Proof.
  vm_compute. repeat split.
  apply list_elem_of_further, list_elem_of_here.
Qed.

Lemma cluster_recreated_in_docker_branch_witness :
  cluster_commands
    (provision (inv := dev_invocation ["--docker"]) (xenial_with [])).2
  = [DROP_CLUSTER "9.5"; CREATE_CLUSTER "9.5"].
Proof.
  pose proof (cluster_recreated_in_docker_branch
                (inv := dev_invocation ["--docker"]) (xenial_with []))
    as H.
  destruct (provision (inv := dev_invocation ["--docker"]) (xenial_with []))
    as [[r w] t] eqn:E.
  vm_compute in E. injection E as <- <- <-.
  destruct H as [_ H].
  destruct (H eq_refl eq_refl) as (c & pv & Hc & Hpv & Hcl & _).
  vm_compute in Hc. injection Hc as <-.
  apply postgres_version_spec in Hpv as [[? _]|[_ ->]]; [done|].
  exact Hcl.
Defined.

(** A run that completes and a run with [--docker] that stops at the copy of
    the stopwords installed the same packages. *)
Lemma resolution_is_deterministic_witness :
  hd [] (install_batches
           (provision (inv := dev_invocation []) (xenial_with [])).2)
  = hd [] (install_batches
             (provision (inv := dev_invocation ["--docker"])
                (xenial_with [Ok tt; Ok tt; Ok tt; Ok tt; Ok tt; Ok tt;
                              Ok tt; Ok tt; Ok tt; Ok tt; Ok tt;
                              Raise (OtherError "disk full")])).2).
Proof.
  refine (proj1 (proj2 (resolution_is_deterministic
    (dev_invocation []) (dev_invocation ["--docker"]) (xenial_with [])
    (xenial_with [Ok tt; Ok tt; Ok tt; Ok tt; Ok tt; Ok tt; Ok tt;
                  Ok tt; Ok tt; Ok tt; Ok tt;
                  Raise (OtherError "disk full")]))
    "xenial" _ _ _ _ _ _)).
  - by vm_compute.
  - by vm_compute.
  - vm_compute. apply list_elem_of_here.
  - vm_compute. apply list_elem_of_here.
Defined.

Lemma xenial_resolves_to_its_postgresql_witness :
  ∃ xenial, APT_DEPENDENCIES !! "xenial" = Some xenial
            ∧ "postgresql-9.5" ∈ xenial.
Proof.
  destruct (xenial_resolves_to_its_postgresql (lib := zulip_scripts_lib))
    as (_ & xenial & trusty & version & Hx & _ & _ & -> & Hin & _).
  by exists xenial.
Defined.

(** ** Further properties of whole runs *)

Section Strings.

Lemma append_nil (b : string) : "" +:+ b = b.
Proof. reflexivity. Qed.

Lemma append_cons (c : ascii) (a b : string) :
  String c a +:+ b = String c (a +:+ b).
Proof. reflexivity. Qed.

Lemma append_empty (a b : string) : a +:+ b = "" → a = "" ∧ b = "".
Proof. destruct a; [by rewrite append_nil|by rewrite append_cons]. Qed.

Lemma string_app_assoc (a b c : string) :
  (a +:+ b) +:+ c = a +:+ (b +:+ c).
Proof.
  induction a as [|x a IH]; [done|]. rewrite !append_cons. by rewrite IH.
Qed.

Lemma endswith_sep_append (a b : string) :
  b ≠ "" → Py.endswith_sep (a +:+ b) = Py.endswith_sep b.
Proof.
  intros Hb. induction a as [|c a IH]; [done|].
  rewrite append_cons. simpl. rewrite IH.
  destruct (a +:+ b) eqn:E; [|done].
  by apply append_empty in E as [_ ?].
Qed.

(** [os.path.join(a, name)] for a relative [name] and a path [a] that is not
    empty and does not end with a slash. *)
Lemma join_plain (a name : string) :
  a ≠ "" → Py.endswith_sep a = false → Py.startswith_sep name = false →
  Py.os_path_join a [name] = a +:+ "/" +:+ name.
Proof.
  intros Ha He Hn. unfold Py.os_path_join, Py.join_step. cbn [fold_left].
  rewrite Hn, He. by destruct (String.eqb_spec a "").
Qed.

End Strings.

Section FurtherRuns.
Context {W : Type} {sys : System W} {lib : ScriptsLib} {inv : Invocation}.

Lemma supported_has_dependencies (v c : string) :
  platform_supported v c = true → is_Some (APT_DEPENDENCIES !! c).
Proof.
  intros [_ [->| ->]]%platform_supported_spec; eexists;
    apply apt_dependencies_spec; [left|right]; done.
Qed.

(** X1: how a run ends.  A run that returns returns 0.  A run that ends
    with an exception ends either with the exception of the last call it
    made, or with [SystemExit(1)] right after a report of the script's own
    (no repository, wrong architecture, unsupported platform).  The
    script's own dictionary lookups never raise. *)
Theorem run_ends_at_a_failed_call_or_a_refusal (w : W) :
  let '(r, _, t) := provision w in
  match r with
  | Ok status => status = 0
  | Raise e =>
      last_failure t = Some e
      ∨ (e = SystemExit 1 ∧ last_failure t = None
         ∧ ∃ ev, last t = Some ev ∧ is_report ev = true)
  end.
Proof.
  apply (wp_provision
    (λ p, let '(r, _, t) := p in
          match r with
          | Ok status => status = 0
          | Raise e =>
              last_failure t = Some e
              ∨ (e = SystemExit 1 ∧ last_failure t = None
                 ∧ ∃ ev, last t = Some ev ∧ is_report ev = true)
          end)).
  wp_script_ends.
  all: try (vm_compute; first [reflexivity | by left | by right; eauto]).
  all: exfalso; cbn [codename] in *;
    match goal with
    | Hs : platform_supported ?v ?c = true |- _ =>
        destruct (supported_has_dependencies v c Hs); congruence
    end.
Qed.

(** X2: every package installation, the one of the module-level code and the
    one of [main], comes right after an [apt-get update] that succeeded. *)
Theorem package_index_refreshed_before_install (w : W) :
  installs_follow_update None (provision w).2 = true.
Proof.
  apply (wp_provision (λ p, installs_follow_update None p.2 = true)).
  wp_script_ends.
  all: vm_compute; reflexivity.
Qed.

(** X3: with [--production-travis] none of the six commands that set up the
    message broker and the databases (lines 193-198) is run; without it, a
    run that completes has run the six of them, in the order of the
    source. *)
Theorem production_travis_skips_database_setup (w : W) :
  let '(r, _, t) := provision w in
  (PRODUCTION_TRAVIS = true → database_setup t = [])
  ∧ (PRODUCTION_TRAVIS = false → r = Ok 0 → database_setup t = DATABASE_SETUP).
Proof.
  apply (wp_provision
    (λ p, let '(r, _, t) := p in
          (PRODUCTION_TRAVIS = true → database_setup t = [])
          ∧ (PRODUCTION_TRAVIS = false → r = Ok 0 →
             database_setup t = DATABASE_SETUP))).
  wp_script_ends.
  all: split; intros Hb;
    [try (vm_compute; reflexivity)|intros Hr; try discriminate Hr].
  all: try congruence.
  all: vm_compute; reflexivity.
Qed.

(** X4: the services are restarted only with [--travis] (without
    [--production-travis]) or with [--docker]; there, a run that completes
    has restarted rabbitmq-server, redis-server and memcached, in this
    order.  In every other run no service is restarted. *)
Theorem services_restarted_by_mode (w : W) :
  let '(r, _, t) := provision w in
  (restarts_services = false → restarted t = [])
  ∧ (restarts_services = true → r = Ok 0 →
     restarted t = ["rabbitmq-server"; "redis-server"; "memcached"]).
Proof.
  apply (wp_provision
    (λ p, let '(r, _, t) := p in
          (restarts_services = false → restarted t = [])
          ∧ (restarts_services = true → r = Ok 0 →
             restarted t = ["rabbitmq-server"; "redis-server"; "memcached"]))).
  unfold restarts_services. wp_script_ends.
  all: split; intros Hb;
    [try (vm_compute; reflexivity)|intros Hr; try discriminate Hr].
  all: try discriminate Hb.
  all: vm_compute; reflexivity.
Qed.

(** X5: whatever [main] does (a command it runs, a virtual environment or
    the node modules it sets up, the profile it writes) comes after
    [os.chdir(ZULIP_PATH)] has succeeded. *)
Theorem main_works_inside_the_checkout (w : W) :
  let t := (provision w).2 in
  no_main_call t = true
  ∨ ∃ t1 t2, t = t1 ++ EvChdir ZULIP_PATH (Ok tt) :: t2
             ∧ no_main_call t1 = true.
Proof.
  apply (wp_provision
    (λ p, no_main_call p.2 = true
          ∨ ∃ t1 t2, p.2 = t1 ++ EvChdir ZULIP_PATH (Ok tt) :: t2
                     ∧ no_main_call t1 = true)).
  wp_script_ends.
  all: cbn [snd trace].
  all: lazymatch goal with
       | |- no_main_call ?t = true ∨ _ =>
           first
             [ left; vm_compute; reflexivity
             | right; exists (take 5 t), (drop 6 t); split;
               [ symmetry; apply take_drop_middle; vm_compute;
                 lazymatch goal with
                 | |- Some (EvChdir _ (Ok ?a)) = _ => by destruct a
                 end
               | vm_compute; reflexivity ] ]
       end.
Qed.

(** X7: the [node_modules] link is removed at most once in a run, and
    [setup_node_modules] is called at most twice; on a host where
    [node_modules] is never a link, [rm] is not run at all. *)
Theorem node_modules_link_removed_once (w : W) :
  let t := (provision w).2 in
  (length (removals t) ≤ 1)%nat
  ∧ (length (node_modules_calls t) ≤ 2)%nat
  ∧ ((∀ w', os_path_islink "node_modules" w' = false) → removals t = []).
Proof.
  apply (wp_provision
    (λ p, (length (removals p.2) ≤ 1)%nat
          ∧ (length (node_modules_calls p.2) ≤ 2)%nat
          ∧ ((∀ w', os_path_islink "node_modules" w' = false) →
             removals p.2 = []))).
  wp_script_ends.
  all: split; [vm_compute; lia|split; [vm_compute; lia|]].
  all: intros Hlink.
  all: try (vm_compute; reflexivity).
  all: repeat match goal with
              | H : os_path_islink _ _ = true |- _ =>
                  rewrite Hlink in H; discriminate H
              end.
Qed.

(** X6: with [--travis] the script sets the virtual environments up itself
    and never calls [setup_venvs.main]; without it, it calls
    [setup_venvs.main] and never [setup_virtualenv].  With [--travis] a run
    that completes has set up the environments of [TRAVIS_VIRTUALENVS], and
    the last of them is [VENV_PATH], the one the profile activates. *)
Theorem virtualenvs_by_mode (w : W) :
  let '(r, _, t) := provision w in
  (if TRAVIS then venvs_main_calls t = [] else virtualenvs t = [])
  ∧ (r = Ok 0 →
     if TRAVIS
     then virtualenvs t = TRAVIS_VIRTUALENVS
          ∧ (λ e, e.1.1.1) <$> last (virtualenvs t) = Some VENV_PATH
     else venvs_main_calls t = [Ok tt]).
Proof.
  apply (wp_provision
    (λ p, let '(r, _, t) := p in
          (if TRAVIS then venvs_main_calls t = [] else virtualenvs t = [])
          ∧ (r = Ok 0 →
             if TRAVIS
             then virtualenvs t = TRAVIS_VIRTUALENVS
                  ∧ (λ e, e.1.1.1) <$> last (virtualenvs t) = Some VENV_PATH
             else venvs_main_calls t = [Ok tt]))).
  unfold TRAVIS_VIRTUALENVS. wp_script_ends.
  all: split;
    [ lazymatch goal with
      | |- context [TRAVIS] => destruct TRAVIS
      | _ => idtac
      end; vm_compute; reflexivity
    | intros Hr; try discriminate Hr ].
  all: lazymatch goal with
       | |- _ ∧ _ =>
           unfold VENV_PATH;
           repeat match goal with H : PY2 = _ |- _ => rewrite !H end;
           split; vm_compute; reflexivity
       | _ =>
           vm_compute;
           lazymatch goal with |- [Ok ?a] = _ => by destruct a end
       end.
Qed.

(** X8: [setup_node_modules] comes last: after its first call the script
    only prints and, at most, calls it again. *)
Theorem node_modules_set_up_last (w : W) :
  forallb (λ ev, is_report ev || is_node_modules ev)
    (since_node_modules (provision w).2) = true.
Proof.
  apply (wp_provision
    (λ p, forallb (λ ev, is_report ev || is_node_modules ev)
            (since_node_modules p.2) = true)).
  wp_script_ends.
  all: vm_compute; reflexivity.
Qed.

(** X9: the only file copied is the stop-words list of the repository, at
    most once, into the [tsearch_data] directory of the PostgreSQL version
    that [POSTGRES_VERSION_MAP] gives for the detected codename. *)
Theorem stop_words_copied_for_detected_version (w : W) :
  let t := (provision w).2 in
  match copies t with
  | [] => True
  | [argv] =>
      ∃ c version,
        detected_codename t = Some c
        ∧ POSTGRES_VERSION_MAP !! c = Some version
        ∧ argv = ["sudo"; "cp"; REPO_STOPWORDS_PATH;
                  "/usr/share/postgresql/" +:+ version +:+ "/tsearch_data/"]
  | _ => False
  end.
Proof.
  apply (wp_provision
    (λ p, match copies p.2 with
          | [] => True
          | [argv] =>
              ∃ c version,
                detected_codename p.2 = Some c
                ∧ POSTGRES_VERSION_MAP !! c = Some version
                ∧ argv = ["sudo"; "cp"; REPO_STOPWORDS_PATH;
                          "/usr/share/postgresql/" +:+ version
                            +:+ "/tsearch_data/"]
          | _ => False
          end)).
  wp_script_ends.
  all: cbn [snd];
    repeat match goal with
           | x := context [REPO_STOPWORDS_PATH] |- _ => subst x
           end;
    generalize REPO_STOPWORDS_PATH; intros repo;
    lazymatch goal with
    | |- context [copies ?t] =>
        let b := eval vm_compute in (copies t) in
        change (copies t) with b
    end; cbn iota; try exact I.
  all: lazymatch goal with
       | H : POSTGRES_VERSION_MAP !! ?c = Some ?pv |- _ =>
           exists c, pv; split; [by vm_compute|split; [exact H|reflexivity]]
       end.
Qed.

Lemma var_dir_path_plain :
  VAR_DIR_PATH ≠ "" ∧ Py.endswith_sep VAR_DIR_PATH = false.
Proof.
  unfold VAR_DIR_PATH, Py.os_path_join, Py.join_step. cbn [fold_left].
  change (Py.startswith_sep "var") with false. cbv iota.
  destruct (String.eqb ZULIP_PATH "" || Py.endswith_sep ZULIP_PATH).
  - split; [by intros [_ ?]%append_empty|by rewrite endswith_sep_append].
  - split; [intros [_ ?]%append_empty; done|].
    by rewrite !endswith_sep_append.
Qed.

Lemma directories_in_var :
  DIRECTORIES = map (λ name, VAR_DIR_PATH +:+ "/" +:+ name) DIRECTORY_NAMES.
Proof.
  destruct var_dir_path_plain as [Hne He].
  unfold DIRECTORIES, DIRECTORY_NAMES, LOG_DIR_PATH, UPLOAD_DIR_PATH,
    TEST_UPLOAD_DIR_PATH, COVERAGE_DIR_PATH, LINECOVERAGE_DIR_PATH,
    NODE_TEST_COVERAGE_DIR_PATH.
  cbn [map]. by rewrite !join_plain.
Qed.

(** X10: a run that completes has created six directories with [mkdir -p],
    each one [VAR_DIR_PATH], a slash and its name, whatever [ZULIP_PATH] is;
    it runs no other [mkdir]. *)
Theorem directories_created_inside_var (w : W) :
  let '(r, _, t) := provision w in
  r = Ok 0 →
  mkdirs t
  = map (λ name, ["mkdir"; "-p"; VAR_DIR_PATH +:+ "/" +:+ name])
      DIRECTORY_NAMES.
Proof.
  apply (wp_provision
    (λ p, let '(r, _, t) := p in
          r = Ok 0 →
          mkdirs t
          = map (λ name, ["mkdir"; "-p"; VAR_DIR_PATH +:+ "/" +:+ name])
              DIRECTORY_NAMES)).
  assert (Hd : map (λ name, ["mkdir"; "-p"; VAR_DIR_PATH +:+ "/" +:+ name])
                 DIRECTORY_NAMES
               = map (λ d, ["mkdir"; "-p"; d]) DIRECTORIES).
  { rewrite directories_in_var. by rewrite <- list_fmap_compose. }
  rewrite Hd. clear Hd. unfold DIRECTORIES.
  wp_script_ends.
  all: intros Hr; try discriminate Hr.
  all: vm_compute; reflexivity.
Qed.

(** X11: a run that returns 0 ends by printing an empty line and the
    success message; a run that does not never prints an empty line. *)
Theorem success_is_announced_last (w : W) :
  let '(r, _, t) := provision w in
  (r = Ok 0 → ∃ t0, t = t0 ++ [EvPrint ""; EvPrint SUCCESS_MESSAGE])
  ∧ (r ≠ Ok 0 → "" ∉ printed t).
Proof.
  apply (wp_provision
    (λ p, let '(r, _, t) := p in
          (r = Ok 0 → ∃ t0, t = t0 ++ [EvPrint ""; EvPrint SUCCESS_MESSAGE])
          ∧ (r ≠ Ok 0 → "" ∉ printed t))).
  wp_script_ends.
  all: cbn [trace]; split; intros Hr; try discriminate Hr; try done.
  all: try lazymatch goal with
       | |- ∃ t0, (?T ++ [?e1]) ++ [?e2] = _ =>
           exists T; exact (eq_sym (app_assoc T [e1] [e2]))
       end.
  all: repeat match goal with
              | |- context [EvPrint (WARNING +:+ ?s)] =>
                  let line := fresh "line" in
                  remember (WARNING +:+ s) as line
              end.
  all: lazymatch goal with
       | |- _ ∉ printed ?t =>
           let l := eval vm_compute in (printed t) in
           change (printed t) with l
       end.
  all: rewrite ?not_elem_of_cons; repeat split;
    try apply not_elem_of_nil; try discriminate.
  all: subst; intros [_ [? _]%append_empty]%eq_sym%append_empty;
    discriminate.
Qed.

End FurtherRuns.

(** With [--production-travis] a run that completes has set up no database;
    without it, it has run the six commands. *)
Lemma production_travis_skips_database_setup_witness :
  database_setup
    (provision (inv := dev_invocation ["--production-travis"])
       (xenial_with [])).2 = []
  ∧ database_setup (provision (inv := dev_invocation []) (xenial_with [])).2
    = DATABASE_SETUP.
Proof.
  split.
  - pose proof (production_travis_skips_database_setup
                  (inv := dev_invocation ["--production-travis"])
                  (xenial_with [])) as H.
    destruct (provision (inv := dev_invocation ["--production-travis"])
                (xenial_with [])) as [[r w] t].
    by apply H.
  - pose proof (production_travis_skips_database_setup
                  (inv := dev_invocation []) (xenial_with [])) as H.
    destruct (provision (inv := dev_invocation []) (xenial_with []))
      as [[r w] t] eqn:E.
    vm_compute in E. injection E as <- <- <-.
    by apply H.
Defined.

Lemma services_restarted_by_mode_witness :
  restarted (provision (inv := dev_invocation ["--travis"]) (xenial_with [])).2
  = ["rabbitmq-server"; "redis-server"; "memcached"]
  ∧ restarted (provision (inv := dev_invocation []) (xenial_with [])).2 = [].
Proof.
  split.
  - pose proof (services_restarted_by_mode
                  (inv := dev_invocation ["--travis"]) (xenial_with [])) as H.
    destruct (provision (inv := dev_invocation ["--travis"])
                (xenial_with [])) as [[r w] t] eqn:E.
    vm_compute in E. injection E as <- <- <-.
    by apply H.
  - pose proof (services_restarted_by_mode
                  (inv := dev_invocation []) (xenial_with [])) as H.
    destruct (provision (inv := dev_invocation []) (xenial_with []))
      as [[r w] t].
    by apply H.
Defined.

Lemma virtualenvs_by_mode_witness :
  virtualenvs
    (provision (inv := dev_invocation ["--travis"]) (xenial_with [])).2
  = [ ("/srv/zulip-py3-venv", "/srv/zulip/requirements/py3_dev.txt", true,
       ["-p"; "python3"]) ]
  ∧ venvs_main_calls
      (provision (inv := dev_invocation []) (xenial_with [])).2 = [Ok tt].
Proof.
  split.
  - pose proof (virtualenvs_by_mode
                  (inv := dev_invocation ["--travis"]) (xenial_with [])) as H.
    destruct (provision (inv := dev_invocation ["--travis"])
                (xenial_with [])) as [[r w] t] eqn:E.
    vm_compute in E. injection E as <- <- <-.
    exact (proj1 (proj2 H eq_refl)).
  - pose proof (virtualenvs_by_mode
                  (inv := dev_invocation []) (xenial_with [])) as H.
    destruct (provision (inv := dev_invocation []) (xenial_with []))
      as [[r w] t] eqn:E.
    vm_compute in E. injection E as <- <- <-.
    exact (proj2 H eq_refl).
Defined.

Lemma directories_created_inside_var_witness :
  mkdirs (provision (inv := dev_invocation []) (xenial_with [])).2
  = [ ["mkdir"; "-p"; "/srv/zulip/var/log"];
      ["mkdir"; "-p"; "/srv/zulip/var/uploads"];
      ["mkdir"; "-p"; "/srv/zulip/var/test_uploads"];
      ["mkdir"; "-p"; "/srv/zulip/var/coverage"];
      ["mkdir"; "-p"; "/srv/zulip/var/linecoverage-report"];
      ["mkdir"; "-p"; "/srv/zulip/var/node-coverage"] ].
Proof.
  pose proof (directories_created_inside_var
                (inv := dev_invocation []) (xenial_with [])) as H.
  destruct (provision (inv := dev_invocation []) (xenial_with []))
    as [[r w] t] eqn:E.
  vm_compute in E. injection E as <- <- <-.
  exact (H eq_refl).
Defined.

Lemma success_is_announced_last_witness :
  (∃ t0, (provision (inv := dev_invocation []) (xenial_with [])).2
         = t0 ++ [EvPrint ""; EvPrint SUCCESS_MESSAGE])
  ∧ "" ∉ printed (provision (inv := dev_invocation []) bare_scripted).2.
Proof.
  split.
  - pose proof (success_is_announced_last
                  (inv := dev_invocation []) (xenial_with [])) as H.
    destruct (provision (inv := dev_invocation []) (xenial_with []))
      as [[r w] t] eqn:E.
    vm_compute in E. injection E as <- <- <-.
    exact (proj1 H eq_refl).
  - pose proof (success_is_announced_last
                  (inv := dev_invocation []) bare_scripted) as H.
    destruct (provision (inv := dev_invocation []) bare_scripted)
      as [[r w] t] eqn:E.
    vm_compute in E. injection E as <- <- <-.
    apply (proj2 H). discriminate.
Defined.

Lemma node_modules_link_removed_once_witness :
  removals (provision (inv := dev_invocation []) xenial_host).2 = [].
Proof.
  exact (proj2 (proj2 (node_modules_link_removed_once
                         (inv := dev_invocation []) xenial_host))
           (λ _, eq_refl)).
Defined.

(** ** The tables *)

Section Catalog.
Context {lib : ScriptsLib}.

(** X12: the three tables agree.  [POSTGRES_VERSION_MAP] and
    [APT_DEPENDENCIES] have an entry exactly for the codenames
    [SUPPORTED_PLATFORMS] lists, all of Ubuntu, and the packages of a
    codename are the common ones followed by the three PostgreSQL packages
    of the version [POSTGRES_VERSION_MAP] gives it. *)
Theorem tables_cover_the_supported_codenames (c : string) :
  (is_Some (POSTGRES_VERSION_MAP !! c)
   ↔ platform_supported "Ubuntu" c = true)
  ∧ (is_Some (APT_DEPENDENCIES !! c)
     ↔ platform_supported "Ubuntu" c = true)
  ∧ (∀ v, platform_supported v c = true → v = "Ubuntu")
  ∧ (∀ version,
       POSTGRES_VERSION_MAP !! c = Some version →
       APT_DEPENDENCIES !! c
       = Some (UBUNTU_COMMON_APT_DEPENDENCIES ++
               [ "postgresql-" +:+ version;
                 "postgresql-" +:+ version +:+ "-tsearch-extras";
                 "postgresql-" +:+ version +:+ "-pgroonga" ])).
Proof.
  repeat split.
  - intros [pv [[-> _]|[-> _]]%postgres_version_spec];
      apply platform_supported_spec; naive_solver.
  - intros [_ [->| ->]]%platform_supported_spec; eexists;
      apply postgres_version_spec; naive_solver.
  - intros [pkgs [[-> _]|[-> _]]%apt_dependencies_spec];
      apply platform_supported_spec; naive_solver.
  - intros [_ [->| ->]]%platform_supported_spec; eexists;
      apply apt_dependencies_spec; naive_solver.
  - by intros v [-> _]%platform_supported_spec.
  - intros version [[-> ->]|[-> ->]]%postgres_version_spec;
      apply apt_dependencies_spec; [left|right]; done.
Qed.

End Catalog.

(** ** Running the script again on the model host *)

Section Paths.
Import Host.

Lemma split_sep_nonempty (s : string) : split_sep s ≠ [].
Proof.
  induction s as [|c s IH]; [done|]. simpl.
  destruct (split_sep s); [done|]. by destruct (Ascii.eqb c "/").
Qed.

Lemma split_sep_app_sep (a s : string) :
  split_sep (a +:+ String "/" s) = split_sep a ++ split_sep s.
Proof.
  induction a as [|c a IH].
  - rewrite append_nil. simpl.
    pose proof (split_sep_nonempty s). by destruct (split_sep s).
  - rewrite append_cons. simpl. rewrite IH.
    pose proof (split_sep_nonempty a).
    destruct (split_sep a); [done|]. simpl. by destruct (Ascii.eqb c "/").
Qed.

Lemma segments_app_sep (a s : string) :
  segments (a +:+ String "/" s) = segments a ++ segments s.
Proof. unfold segments. by rewrite split_sep_app_sep, filter_app. Qed.

Lemma endswith_sep_split (a : string) :
  Py.endswith_sep a = true → ∃ a0, a = a0 +:+ "/".
Proof.
  induction a as [|c a IH]; [done|]. simpl.
  destruct a as [|c' a'].
  - intros Hc%Ascii.eqb_eq. subst. by exists "".
  - intros [a0 ->]%IH. by exists (String c a0).
Qed.

Lemma segments_join_step (a b : string) :
  Py.startswith_sep b = false →
  segments (Py.join_step a b) = segments a ++ segments b.
Proof.
  intros Hb. unfold Py.join_step. rewrite Hb.
  destruct (String.eqb_spec a "") as [->|Ha]; [done|]. simpl.
  destruct (Py.endswith_sep a) eqn:He.
  - apply endswith_sep_split in He as [a0 ->].
    rewrite string_app_assoc, append_cons, append_nil.
    rewrite !segments_app_sep.
    change (segments "") with (@nil string). by rewrite app_nil_r.
  - by rewrite append_cons, append_nil, segments_app_sep.
Qed.

Lemma startswith_join_step (a b : string) :
  Py.startswith_sep a = true → Py.startswith_sep b = false →
  Py.startswith_sep (Py.join_step a b) = true.
Proof.
  intros Ha Hb. unfold Py.join_step. rewrite Hb.
  destruct a as [|c a]; [done|].
  cbn [String.eqb orb].
  destruct (Py.endswith_sep (String c a)); by rewrite append_cons.
Qed.

Lemma join_absolute (a : string) (ps : list string) :
  Py.startswith_sep a = true →
  forallb (λ p, negb (Py.startswith_sep p)) ps = true →
  Py.startswith_sep (Py.os_path_join a ps) = true
  ∧ segments (Py.os_path_join a ps) = segments a ++ concat (map segments ps).
Proof.
  unfold Py.os_path_join. revert a.
  induction ps as [|p ps IH]; intros a Ha Hps; simpl.
  - by rewrite app_nil_r.
  - simpl in Hps. apply andb_true_iff in Hps as [Hp Hps].
    apply negb_true_iff in Hp.
    destruct (IH (Py.join_step a p)) as [H1 H2];
      [by apply startswith_join_step|done|].
    split; [done|]. rewrite H2, segments_join_step by done.
    by rewrite <- app_assoc.
Qed.

Lemma endswith_sep_app (a b : string) :
  b ≠ "" → Py.endswith_sep b = true → Py.endswith_sep (a +:+ b) = true.
Proof.
  intros Hb He. induction a as [|c a IH]; [done|].
  rewrite append_cons. simpl. rewrite IH.
  destruct (a +:+ b) eqn:E; [|done].
  destruct a; [by rewrite append_nil in E|by rewrite append_cons in E].
Qed.

Lemma resolve_absolute (dir : list string) (path : string) :
  Py.startswith_sep path = true → resolve_from dir path = segments path.
Proof. intros H. unfold resolve_from. by rewrite H. Qed.

End Paths.

Section Exec.
Import Host.

Lemma wp_call_known {W A} (f : W → Result A * W) ev Q w t r w' :
  f w = (r, w') →
  Q r (MkState w' (t ++ [ev r])) →
  wp (call f ev) Q (MkState w t).
Proof. intros E HQ. unfold wp, call, record. simpl. by rewrite E. Qed.

Lemma exec_inert (argv : list string) (h : Host.t) :
  inert argv = true → exec argv h = (Ok tt, h).
Proof.
  unfold inert, exec. destruct (strip_sudo argv) as [|prog args]; [done|].
  destruct (String.eqb prog "mkdir"); [done|].
  destruct (String.eqb prog "cp"); [done|].
  destruct (String.eqb prog "apt-get"); [|done].
  by destruct (Py.contains "install" args).
Qed.

Lemma exec_cp (src dst : string) (h : Host.t) :
  exec ["sudo"; "cp"; src; dst] h =
    match cp (resolve h src) (resolve h dst) (Py.endswith_sep dst) (fs h) with
    | Some f' => (Ok tt, with_fs h f')
    | None => failed ["sudo"; "cp"; src; dst] h
    end.
Proof. reflexivity. Qed.

Lemma exec_apt_lsb_release (h : Host.t) :
  exec APT_LSB_RELEASE h =
    (Ok tt,
     with_packages h
       (packages h
        ∪ list_to_set ["lsb-release"; "software-properties-common"])).
Proof. reflexivity. Qed.

Lemma exec_apt_install (pkgs : list string) (h : Host.t) :
  exec (APT_INSTALL ++ pkgs) h =
    (Ok tt,
     with_packages h
       (packages h
        ∪ list_to_set
            (package_args
               ("-y" :: "install" :: "--no-install-recommends" :: pkgs)))).
Proof. reflexivity. Qed.

End Exec.

(** A call whose result on the model host is known. *)
Ltac host_known :=
  lazymatch goal with
  | |- wp (call ?f ?ev) ?Q (MkState ?h ?t) =>
      first
        [ apply (wp_call_known f ev Q h t (Ok tt) h (exec_inert _ h eq_refl))
        | apply (wp_call_known f ev Q h t _ h eq_refl)
        | match goal with
          | H : _ = (Ok tt, h) |- _ =>
              apply (wp_call_known f ev Q h t (Ok tt) h H)
          end ]
  end; lazy beta iota.

(** A dictionary lookup whose result is among the hypotheses. *)
Ltac wp_dict_known :=
  lazymatch goal with |- wp (dict_get _ _) _ _ => apply wp_dict_get end;
  [ let v := fresh "v" in let H := fresh "H" in
    intros v H; cbn [codename] in H; simplify_eq
  | let H := fresh "H" in intros H; cbn [codename] in H; congruence ];
  lazy beta iota.

Section Rerun.
Import Host.
Context {lib : ScriptsLib} {inv : Invocation}.

Lemma settled_rerun (h : Host.t) :
  settled h → ∃ t, provision h = (Ok 0, h, t).
Proof.
  intros [Hgit Harch Hplat Hlsb Hchdir Hpkgs Hprofile Hcp Hdirs].
  assert (Hd : ∀ d, d ∈ DIRECTORIES →
            zulip_tools_run ["mkdir"; "-p"; d] h = (Ok tt, h)) by exact Hdirs.
  pose proof (Hd _ ltac:(apply list_elem_of_here)) as Hd1.
  pose proof (Hd _ ltac:(do 1 apply list_elem_of_further; apply list_elem_of_here)) as Hd2.
  pose proof (Hd _ ltac:(do 2 apply list_elem_of_further; apply list_elem_of_here)) as Hd3.
  pose proof (Hd _ ltac:(do 3 apply list_elem_of_further; apply list_elem_of_here)) as Hd4.
  pose proof (Hd _ ltac:(do 4 apply list_elem_of_further; apply list_elem_of_here)) as Hd5.
  pose proof (Hd _ ltac:(do 5 apply list_elem_of_further; apply list_elem_of_here)) as Hd6.
  clear Hd Hdirs.
  destruct (supported_has_version _ _ Hplat) as [pv Hpv].
  assert (∃ pkgs, APT_DEPENDENCIES !! lsb_codename h = Some pkgs)
    as [pkgs Hdeps].
  { apply platform_supported_spec in Hplat as [_ [-> | ->]]; eexists;
      apply apt_dependencies_spec; [left|right]; done. }
  specialize (Hpkgs pkgs Hdeps).
  pose proof (Hcp (MkGlobals "amd64" (lsb_vendor h) (lsb_codename h) pv) Hpv)
    as Hcp64.
  pose proof (Hcp (MkGlobals "i386" (lsb_vendor h) (lsb_codename h) pv) Hpv)
    as Hcp32.
  clear Hcp. destruct Harch as [a Harch]. unfold arch_of in Harch.
  apply (wp_provision (λ p, ∃ t, p = (Ok 0, h, t))).
  wp_unfold. fold GIT_PATH.
  do 3 wp_prim.
  change (os_path_exists GIT_PATH h) with (Host.path_exists GIT_PATH h).
  rewrite Hgit. cbn [negb]. repeat wp_prim.
  change (platform_architecture h) with (bits h).
  destruct (String.eqb (bits h) "64bit") eqn:H64;
    [|destruct (String.eqb (bits h) "32bit") eqn:H32; [|done]].
  all: repeat first [wp_prim | host_known].
  all: change (negb (platform_supported (lsb_vendor h) (lsb_codename h)))
         with (negb (platform_supported (lsb_vendor h) (lsb_codename h)));
       rewrite Hplat; cbn [negb].
  all: repeat first [wp_prim | wp_if | host_known | wp_dict_known].
  all: by eexists.
Qed.

End Rerun.

Section Inversion.
Import Host.
Implicit Types (b v c : string) (d : list string)
  (f : gmap (list string) Node) (pk : gset string).

Lemma chdir_inv path b v c d f pk h' :
  os_chdir path (Mk b v c d f pk) = (Ok tt, h') →
  is_dir f (resolve_from d path) = true
  ∧ h' = Mk b v c (resolve_from d path) f pk.
Proof.
  cbn [os_chdir host_system]. unfold Host.chdir, resolve.
  cbn [fs cwd with_cwd bits lsb_vendor lsb_codename packages].
  destruct (is_dir f (resolve_from d path)); [|done]. by intros [= <-].
Qed.

Lemma writelines_inv path lines b v c d f pk h' :
  open_writelines path "w+" lines (Mk b v c d f pk) = (Ok tt, h') →
  is_dir f (resolve_from d path) = false
  ∧ is_dir f (parent (resolve_from d path)) = true
  ∧ h' = Mk b v c d
           (<[resolve_from d path :=
                File (fold_right String.append "" lines)]> f) pk.
Proof.
  cbn [open_writelines host_system]. unfold Host.writelines, resolve.
  cbn [fs cwd with_fs bits lsb_vendor lsb_codename packages].
  destruct (is_dir f (resolve_from d path)); [done|].
  destruct (is_dir f (parent (resolve_from d path))); [|done].
  by intros [= <-].
Qed.

Lemma lsb_release_inv b v c d f pk r h' :
  subprocess_check_call APT_LSB_RELEASE (Mk b v c d f pk) = (r, h') →
  r = Ok tt
  ∧ h' = Mk b v c d f
           (pk ∪ list_to_set ["lsb-release"; "software-properties-common"]).
Proof. by intros [= <- <-]. Qed.

Lemma install_inv pkgs b v c d f pk r h' :
  zulip_tools_run (APT_INSTALL ++ pkgs) (Mk b v c d f pk) = (r, h') →
  r = Ok tt
  ∧ h' = Mk b v c d f
           (pk ∪ list_to_set
              (package_args
                 ("-y" :: "install" :: "--no-install-recommends" :: pkgs))).
Proof. by intros [= <- <-]. Qed.

Lemma mkdir_p_inv path b v c d f pk h' :
  zulip_tools_run ["mkdir"; "-p"; path] (Mk b v c d f pk) = (Ok tt, h') →
  ∃ f', mkdir_p (resolve_from d path) f = Some f' ∧ h' = Mk b v c d f' pk.
Proof.
  cbn [zulip_tools_run host_system]. rewrite exec_mkdir_p. unfold resolve.
  cbn [fs cwd with_fs bits lsb_vendor lsb_codename packages].
  destruct (mkdir_p (resolve_from d path) f) as [f'|]; [|done].
  intros [= <-]. by exists f'.
Qed.

Lemma cp_inv src dst b v c d f pk h' :
  zulip_tools_run ["sudo"; "cp"; src; dst] (Mk b v c d f pk) = (Ok tt, h') →
  ∃ f', cp (resolve_from d src) (resolve_from d dst) (Py.endswith_sep dst) f
          = Some f'
        ∧ h' = Mk b v c d f' pk.
Proof.
  cbn [zulip_tools_run host_system].
  change (Host.exec ["sudo"; "cp"; src; dst] (Mk b v c d f pk)) with
    (match cp (resolve_from d src) (resolve_from d dst)
             (Py.endswith_sep dst) f with
     | Some f' => (Ok tt, Mk b v c d f' pk)
     | None => failed ["sudo"; "cp"; src; dst] (Mk b v c d f pk)
     end).
  destruct (cp _ _ _ f) as [f'|]; [|done].
  intros [= <-]. by exists f'.
Qed.

End Inversion.

Ltac host_invert E :=
  first
    [ apply chdir_inv in E as [? ->]
    | apply writelines_inv in E as (? & ? & ->)
    | apply lsb_release_inv in E as [_ ->]
    | apply install_inv in E as [_ ->]
    | apply mkdir_p_inv in E as (? & ? & ->)
    | apply cp_inv in E as (? & ? & ->) ].

Ltac host_effect :=
  lazymatch goal with |- wp (call _ _) _ _ => apply wp_call end;
  [ let E := fresh "E" in intros [] ? E; lazy beta iota; host_invert E
  | let H := fresh in intros ? ? _; lazy beta iota; intros H; discriminate H ].

Section Tree.
Import Host.
Implicit Types (f : gmap (list string) Node) (p q : list string).

Lemma is_dir_spec f p :
  is_dir f p = true ↔ p = [] ∨ f !! p = Some Dir.
Proof.
  unfold is_dir. destruct p as [|s p]; [naive_solver|].
  destruct (f !! (s :: p)) as [[|?]|]; naive_solver.
Qed.

Lemma is_dir_subseteq f f' p :
  f ⊆ f' → is_dir f p = true → is_dir f' p = true.
Proof.
  intros Hsub [->|Hd]%is_dir_spec; apply is_dir_spec; [by left|right].
  by eapply lookup_weaken.
Qed.

Lemma is_dir_insert_file f p q content :
  f !! p ≠ Some Dir → is_dir f q = true →
  is_dir (<[p := File content]> f) q = true.
Proof.
  intros Hp [->|Hd]%is_dir_spec; apply is_dir_spec; [by left|right].
  rewrite lookup_insert_ne; [done|]. intros ->. done.
Qed.

Lemma is_dir_false f p : is_dir f p = false → p ≠ [] ∧ f !! p ≠ Some Dir.
Proof.
  intros H. split; intros Hp; [subst; done|].
  assert (is_dir f p = true) by (apply is_dir_spec; by right). congruence.
Qed.

Lemma is_file_not_dir f p content :
  p ≠ [] → f !! p = Some (File content) → is_dir f p = false.
Proof.
  intros Hp Hf. destruct (is_dir f p) eqn:E; [|done].
  apply is_dir_spec in E as [->|E]; [done|congruence].
Qed.

Lemma parent_ne p : p ≠ [] → parent p ≠ p.
Proof.
  intros Hp Heq. apply (f_equal length) in Heq. unfold parent in Heq.
  rewrite length_take in Heq. destruct p; [done|]. simpl in Heq. lia.
Qed.

Lemma mkdir_p_subseteq f f' p : mkdir_p p f = Some f' → f ⊆ f'.
Proof.
  intros (_ & Hpres & _)%mkdir_p_from_spec.
  apply map_subseteq_spec. exact Hpres.
Qed.

Lemma mkdir_p_settled f f' f'' p :
  mkdir_p p f = Some f' → f' ⊆ f'' → mkdir_p p f'' = Some f''.
Proof.
  intros (Hd & _)%mkdir_p_from_spec Hsub.
  apply mkdir_p_from_all_dirs. intros k Hk.
  eapply lookup_weaken; [by apply Hd|done].
Qed.

(** What a successful copy did: it put the contents of the source at a
    target that was not a directory. *)
Lemma cp_target src dst flag f f' :
  cp src dst flag f = Some f' →
  ∃ content name target,
    f !! src = Some (File content) ∧ last src = Some name
    ∧ f !! target ≠ Some Dir
    ∧ f' = <[target := File content]> f
    ∧ (target = dst ++ [name] ∨ (target = dst ∧ flag = false)).
Proof.
  unfold cp. destruct (f !! src) as [[|content]|]; try done.
  destruct (last src) as [name|]; [|done].
  destruct (is_dir f dst).
  - destruct (f !! (dst ++ [name])) as [[|?]|] eqn:E; [done| |];
      intros [= <-]; exists content, name, (dst ++ [name]);
      rewrite E; naive_solver.
  - destruct flag; [done|].
    destruct (f !! dst) as [[|?]|] eqn:E; [done| |];
      (destruct (is_dir f (parent dst)); [|done]);
      intros [= <-]; exists content, name, dst; rewrite E; naive_solver.
Qed.

Lemma cp_settled src dst flag f f' f'' :
  cp src dst flag f = Some f' → f' ⊆ f'' →
  cp src dst flag f'' = Some f''.
Proof.
  unfold cp. intros Hcp Hsub.
  destruct (f !! src) as [[|content]|] eqn:Hsrc; try done.
  destruct (last src) as [name|]; [|done].
  destruct (is_dir f dst) eqn:Hdst.
  - assert (∃ x, f !! (dst ++ [name]) = x ∧ x ≠ Some Dir
                 ∧ f' = <[dst ++ [name] := File content]> f)
      as (x & Ht & Hx & ->).
    { destruct (f !! (dst ++ [name])) as [[|?]|]; [done| |];
        injection Hcp as <-; eauto. }
    assert (Hs : f'' !! src = Some (File content)).
    { eapply lookup_weaken; [|done].
      destruct (decide (dst ++ [name] = src)) as [<-|Hne];
        [apply lookup_insert_eq|by rewrite lookup_insert_ne]. }
    assert (Hd : is_dir f'' dst = true).
    { eapply is_dir_subseteq; [done|].
      apply is_dir_insert_file; [congruence|done]. }
    assert (Htgt : f'' !! (dst ++ [name]) = Some (File content)).
    { eapply lookup_weaken; [apply lookup_insert_eq|done]. }
    rewrite Hs, Hd, Htgt. by rewrite insert_id.
  - destruct flag; [done|].
    assert (∃ x, f !! dst = x ∧ x ≠ Some Dir
                 ∧ is_dir f (parent dst) = true
                 ∧ f' = <[dst := File content]> f)
      as (x & Ht & Hx & Hpar & ->).
    { destruct (f !! dst) as [[|?]|]; [done| |];
        (destruct (is_dir f (parent dst)); [|done]);
        injection Hcp as <-; eauto. }
    apply is_dir_false in Hdst as [Hne _].
    assert (Hs : f'' !! src = Some (File content)).
    { eapply lookup_weaken; [|done].
      destruct (decide (dst = src)) as [<-|Hne'];
        [apply lookup_insert_eq|by rewrite lookup_insert_ne]. }
    assert (Htgt : f'' !! dst = Some (File content)).
    { eapply lookup_weaken; [apply lookup_insert_eq|done]. }
    assert (Hd : is_dir f'' dst = false) by by eapply is_file_not_dir.
    assert (Hp : is_dir f'' (parent dst) = true).
    { eapply is_dir_subseteq; [done|].
      apply is_dir_insert_file; [congruence|done]. }
    rewrite Hs, Hd, Htgt, Hp. by rewrite insert_id.
Qed.

End Tree.

Section Settles.
Import Host.
Context {lib : ScriptsLib} {inv : Invocation}.
Implicit Types (f : gmap (list string) Node) (pk : gset string).

Lemma profile_path_last (dir : list string) :
  last (resolve_from dir (expanduser_home "/.bash_profile"))
  = Some ".bash_profile".
Proof.
  unfold resolve_from, expanduser_home.
  change "/.bash_profile" with (String "/" ".bash_profile").
  rewrite segments_app_sep.
  change (segments ".bash_profile") with [".bash_profile"].
  destruct (Py.startswith_sep _); rewrite ?app_assoc; apply last_snoc.
Qed.

Lemma tsearch_names_dir (g : Globals) :
  Py.endswith_sep (TSEARCH_STOPWORDS_PATH g) = true.
Proof.
  unfold TSEARCH_STOPWORDS_PATH. rewrite <- string_app_assoc.
  by apply endswith_sep_app.
Qed.

Lemma stopwords_path_last (dir : list string) :
  Py.startswith_sep ZULIP_PATH = true →
  last (resolve_from dir REPO_STOPWORDS_PATH) = Some "zulip_english.stop".
Proof.
  intros Habs. unfold REPO_STOPWORDS_PATH.
  destruct (join_absolute ZULIP_PATH
    ["puppet"; "zulip"; "files"; "postgresql"; "zulip_english.stop"]
    Habs eq_refl) as [Ha Hs].
  rewrite resolve_absolute, Hs by done.
  change (concat _) with
    (["puppet"; "zulip"; "files"; "postgresql"] ++ ["zulip_english.stop"]).
  rewrite !app_assoc. apply last_snoc.
Qed.

Lemma zulip_path_resolves (dir : list string) :
  Py.startswith_sep ZULIP_PATH = true →
  resolve_from dir ZULIP_PATH = segments ZULIP_PATH.
Proof. apply resolve_absolute. Qed.

Lemma git_path_resolves (dir : list string) :
  Py.startswith_sep ZULIP_PATH = true →
  resolve_from dir GIT_PATH = segments GIT_PATH.
Proof.
  intros Habs. apply resolve_absolute.
  by apply (join_absolute ZULIP_PATH [".git"]).
Qed.

Lemma run_settles b v c d f pk a pv pkgs f2 f3 f4 f5 f6 f7 f8 :
  Py.startswith_sep ZULIP_PATH = true →
  Host.path_exists GIT_PATH (Mk b v c d f pk) = true →
  arch_of b = Some a →
  platform_supported v c = true →
  POSTGRES_VERSION_MAP !! c = Some pv →
  APT_DEPENDENCIES !! c = Some pkgs →
  is_dir f (resolve_from d ZULIP_PATH) = true →
  is_dir f (resolve_from (resolve_from d ZULIP_PATH)
              (expanduser_home "/.bash_profile")) = false →
  is_dir f (parent (resolve_from (resolve_from d ZULIP_PATH)
                      (expanduser_home "/.bash_profile"))) = true →
  cp (resolve_from (resolve_from d ZULIP_PATH) REPO_STOPWORDS_PATH)
     (resolve_from (resolve_from d ZULIP_PATH)
        (TSEARCH_STOPWORDS_PATH (MkGlobals a v c pv)))
     (Py.endswith_sep (TSEARCH_STOPWORDS_PATH (MkGlobals a v c pv)))
     (<[resolve_from (resolve_from d ZULIP_PATH)
          (expanduser_home "/.bash_profile") := File FRAGMENT]> f)
    = Some f2 →
  mkdir_p (resolve_from (resolve_from d ZULIP_PATH) LOG_DIR_PATH) f2
    = Some f3 →
  mkdir_p (resolve_from (resolve_from d ZULIP_PATH) UPLOAD_DIR_PATH) f3
    = Some f4 →
  mkdir_p (resolve_from (resolve_from d ZULIP_PATH) TEST_UPLOAD_DIR_PATH) f4
    = Some f5 →
  mkdir_p (resolve_from (resolve_from d ZULIP_PATH) COVERAGE_DIR_PATH) f5
    = Some f6 →
  mkdir_p (resolve_from (resolve_from d ZULIP_PATH) LINECOVERAGE_DIR_PATH) f6
    = Some f7 →
  mkdir_p (resolve_from (resolve_from d ZULIP_PATH)
             NODE_TEST_COVERAGE_DIR_PATH) f7
    = Some f8 →
  settled
    (Mk b v c (resolve_from d ZULIP_PATH) f8
       (pk ∪ list_to_set ["lsb-release"; "software-properties-common"]
        ∪ list_to_set
            (package_args
               ("-y" :: "install" :: "--no-install-recommends" :: pkgs)))).
Proof.
  intros Habs Hgit Harch Hplat Hpv Hdeps Hroot Hp Hpar Hcp
    Hm3 Hm4 Hm5 Hm6 Hm7 Hm8.
  rewrite !(zulip_path_resolves d Habs) in *.
  set (zp := segments ZULIP_PATH) in *.
  set (P := resolve_from zp (expanduser_home "/.bash_profile")) in *.
  set (f1 := <[P := File FRAGMENT]> f) in *.
  pose proof (mkdir_p_subseteq _ _ _ Hm3) as S3.
  pose proof (mkdir_p_subseteq _ _ _ Hm4) as S4.
  pose proof (mkdir_p_subseteq _ _ _ Hm5) as S5.
  pose proof (mkdir_p_subseteq _ _ _ Hm6) as S6.
  pose proof (mkdir_p_subseteq _ _ _ Hm7) as S7.
  pose proof (mkdir_p_subseteq _ _ _ Hm8) as S8.
  assert (S28 : f2 ⊆ f8) by (by repeat (etrans; [eassumption|])).
  assert (S38 : f3 ⊆ f8) by (by repeat (etrans; [eassumption|])).
  assert (S48 : f4 ⊆ f8) by (by repeat (etrans; [eassumption|])).
  assert (S58 : f5 ⊆ f8) by (by repeat (etrans; [eassumption|])).
  assert (S68 : f6 ⊆ f8) by (by repeat (etrans; [eassumption|])).
  assert (S78 : f7 ⊆ f8) by (by repeat (etrans; [eassumption|])).
  destruct (is_dir_false _ _ Hp) as [HPne HPdir].
  destruct (cp_target _ _ _ _ _ Hcp)
    as (content & name & target & Hsrc & Hname & Htdir & Hf2 & Htarget).
  rewrite (stopwords_path_last zp Habs) in Hname. injection Hname as <-.
  assert (HtP : target ≠ P).
  { intros ->. pose proof (profile_path_last zp) as HL. fold P in HL.
    destruct Htarget as [HT|[_ HT]].
    - rewrite HT, last_snoc in HL. discriminate HL.
    - by rewrite tsearch_names_dir in HT. }
  (* directories of the start are directories at the end *)
  assert (Hgrow : ∀ q, is_dir f q = true → is_dir f8 q = true).
  { intros q Hq. eapply is_dir_subseteq; [exact S28|]. rewrite Hf2.
    apply is_dir_insert_file; [done|].
    by apply is_dir_insert_file. }
  assert (Hkeep : ∀ q, is_Some (f !! q) → is_Some (f8 !! q)).
  { intros q Hq.
    assert (is_Some (f2 !! q)) as [x Hx].
    { rewrite Hf2. unfold f1.
      destruct (decide (target = q)) as [->|?];
        [by rewrite lookup_insert_eq|rewrite lookup_insert_ne by done].
      destruct (decide (P = q)) as [->|?];
        [by rewrite lookup_insert_eq|by rewrite lookup_insert_ne]. }
    exists x. by eapply lookup_weaken. }
  constructor.
  - unfold Host.path_exists, resolve in Hgit |- *.
    cbn [fs cwd] in Hgit |- *.
    rewrite (git_path_resolves d Habs) in Hgit.
    rewrite (git_path_resolves zp Habs).
    apply orb_true_iff in Hgit as [Hg|Hg]; apply orb_true_iff.
    + left. by apply Hgrow.
    + right. apply bool_decide_eq_true. apply bool_decide_eq_true in Hg.
      by apply Hkeep.
  - cbn [bits]. by rewrite Harch.
  - done.
  - rewrite exec_apt_lsb_release. unfold with_packages.
    cbn [bits lsb_vendor lsb_codename cwd fs packages].
    do 2 f_equal. set_solver.
  - unfold Host.chdir, resolve, with_cwd.
    cbn [bits lsb_vendor lsb_codename cwd fs packages].
    rewrite (zulip_path_resolves _ Habs). fold zp.
    by rewrite (Hgrow zp Hroot).
  - cbn [lsb_codename]. intros pkgs' Hpkgs'. simplify_eq.
    rewrite exec_apt_install. unfold with_packages.
    cbn [bits lsb_vendor lsb_codename cwd fs packages].
    do 2 f_equal. set_solver.
  - unfold Host.writelines, resolve, with_fs.
    cbn [bits lsb_vendor lsb_codename cwd fs packages]. fold P.
    assert (HP8 : f8 !! P = Some (File FRAGMENT)).
    { eapply lookup_weaken; [|exact S28]. rewrite Hf2.
      rewrite lookup_insert_ne by done. apply lookup_insert_eq. }
    rewrite (is_file_not_dir _ _ _ HPne HP8), (Hgrow _ Hpar).
    cbn [negb String.eqb Ascii.eqb Bool.eqb orb]. fold FRAGMENT.
    by rewrite insert_id.
  - cbn [lsb_codename]. intros g Hg. rewrite exec_cp.
    unfold resolve, with_fs, failed.
    cbn [bits lsb_vendor lsb_codename cwd fs packages].
    assert (Hts : TSEARCH_STOPWORDS_PATH g
                  = TSEARCH_STOPWORDS_PATH (MkGlobals a v c pv)).
    { unfold TSEARCH_STOPWORDS_PATH. cbn [POSTGRES_VERSION]. congruence. }
    rewrite Hts. fold zp. by rewrite (cp_settled _ _ _ _ _ _ Hcp S28).
  - intros dir Hdir. rewrite exec_mkdir_p.
    unfold resolve, with_fs, failed.
    cbn [bits lsb_vendor lsb_codename cwd fs packages]. fold zp.
    unfold DIRECTORIES in Hdir. rewrite !elem_of_cons, elem_of_nil in Hdir.
    destruct Hdir as [->|[->|[->|[->|[->|[->|[]]]]]]].
    + by rewrite (mkdir_p_settled _ _ _ _ Hm3 S38).
    + by rewrite (mkdir_p_settled _ _ _ _ Hm4 S48).
    + by rewrite (mkdir_p_settled _ _ _ _ Hm5 S58).
    + by rewrite (mkdir_p_settled _ _ _ _ Hm6 S68).
    + by rewrite (mkdir_p_settled _ _ _ _ Hm7 S78).
    + by rewrite (mkdir_p_settled _ _ _ _ Hm8 (reflexivity f8)).
Qed.

End Settles.

Section Rerunning.
Import Host.
Context {lib : ScriptsLib} {inv : Invocation}.

Lemma completed_run_settles (h : Host.t) :
  Py.startswith_sep ZULIP_PATH = true →
  wp script (λ r st, r = Ok 0 → settled (world st)) (MkState h []).
Proof.
  intros Habs. destruct h as [b v c d f pk].
  wp_unfold.
  repeat first [wp_prim | wp_if | host_known | host_effect | wp_dict].
  all: try (intros HH; discriminate HH).
  all: intros _; cbn [world];
    cbn [platform_architecture os_path_exists host_system bits lsb_vendor
         lsb_codename codename] in *;
    repeat match goal with
           | H : negb _ = false |- _ => apply negb_false_iff in H
           end.
  all: eapply run_settles; try eassumption.
  all: unfold arch_of;
    repeat match goal with
           | H : String.eqb _ _ = _ |- _ => rewrite H
           end; reflexivity.
Qed.

(** X13: on the model host, whose [mkdir -p], [cp] and [apt-get install]
    are modelled from section 4.5 of the specification, and for an absolute
    [ZULIP_PATH]: the host a run that completed leaves is one on which every
    step that creates a resource succeeds and changes nothing, and a second
    run on it completes and leaves it exactly as it is. *)
Theorem rerun_is_safe (h h1 : Host.t) (t1 : list Event) :
  Py.startswith_sep ZULIP_PATH = true →
  provision h = (Ok 0, h1, t1) →
  settled h1 ∧ ∃ t2, provision h1 = (Ok 0, h1, t2).
Proof.
  intros Habs Hrun.
  assert (Hs : settled h1); [|split; [done|by apply settled_rerun]].
  pose proof (completed_run_settles h Habs) as Hwp.
  unfold wp in Hwp. unfold provision in Hrun.
  destruct (script (MkState h [])) as [r st]. simpl in Hwp.
  injection Hrun as -> <- _. by apply Hwp.
Qed.

End Rerunning.

Lemma xenial_run_completes :
  (provision (inv := dev_invocation []) xenial_host).1.1 = Ok 0.
Proof. vm_compute. reflexivity. Qed.

(** A first run on the checkout of Ubuntu xenial, then a second one. *)
Lemma rerun_is_safe_witness :
  let h1 := (provision (inv := dev_invocation []) xenial_host).1.2 in
  ∃ t2, provision (inv := dev_invocation []) h1 = (Ok 0, h1, t2).
Proof.
  intros h1.
  refine (proj2 (rerun_is_safe (inv := dev_invocation []) xenial_host h1
                   (provision (inv := dev_invocation []) xenial_host).2
                   eq_refl _)).
  subst h1. pose proof xenial_run_completes as H.
  destruct (provision (inv := dev_invocation []) xenial_host) as [[r h] t].
  cbn [fst snd] in *. by rewrite H.
Defined.
